(** * The vehicle-insurance training pipeline: ingestion, configuration and
      orchestration

    A shallow embedding of
    - [src/constants/__init__.py] and [src/entity/config_entity.py]
      (module [Config]),
    - [src/entity/artifact_entity.py] (module [Artifact]),
    - [src/data_access/proj1_data.py] and
      [src/configuration/mongo_db_connection.py] (module [Mongo], over the
      tables of module [Frame]),
    - [src/components/data_ingestion.py] (module [Ingestion], with the
      library call it makes in module [Sklearn]),
    - [src/pipline/training_pipeline.py] (module [Pipeline]),
    together with the properties the specification states about them. The
    evaluation component is not among the sources; module [Evaluation]
    follows the specification.

    The split ratio is a Python number (module [Number]): an [int] or a
    [float], the product of a float and a row count rounded as the machine
    rounds it. The scores of the evaluation are idealised as rationals
    ([Q]), on which comparisons are exact. *)

From Stdlib Require Import ZArith QArith Qround Lqa Lia List Ascii String.
From stdpp Require Import base strings list gmap pretty.

Local Open Scope string_scope.
Local Open Scope list_scope.

(** ** Exceptions *)

(** Modelled from the spec: [src/exception.py] is not part of the sources.
    [MyException] is the "one uniform error type carrying the original cause":
    [MyException e] is what [MyException(e, sys)] builds from a caught [e].
    [PyError kind msg] stands for every other Python exception (a subclass of
    [Exception]) by the name of its class and its message. *)
Inductive Exn : Type :=
| PyError (kind msg : string)
| MyException (cause : Exn).

(** The exception at the bottom of a chain of wrappers. *)
Fixpoint root_cause (e : Exn) : Exn :=
  match e with
  | PyError _ _ => e
  | MyException c => root_cause c
  end.

Definition ValueError (msg : string) : Exn := PyError "ValueError" msg.
Definition TypeError (msg : string) : Exn := PyError "TypeError" msg.
Definition PlainException (msg : string) : Exn := PyError "Exception" msg.

(** The outcome of a call: an exception raised, or a value returned. *)
Definition Result (A : Type) : Type := Exn + A.

(** ** [os.path] (POSIX) *)

Module OsPath.

Definition starts_with_sep (s : string) : bool :=
  match s with
  | String c _ => Ascii.eqb c "/"
  | EmptyString => false
  end.

Fixpoint ends_with_sep (s : string) : bool :=
  match s with
  | EmptyString => false
  | String c EmptyString => Ascii.eqb c "/"
  | String _ r => ends_with_sep r
  end.

(** [os.path.join(a, b)]: an absolute [b] discards [a]; otherwise the two
    are glued with one separator, unless [a] is empty or already ends with
    one. *)
Definition join (a b : string) : string :=
  if starts_with_sep b then b
  else match a with
       | EmptyString => b
       | _ => if ends_with_sep a then a +:+ b else a +:+ "/" +:+ b
       end.

Definition join3 (a b c : string) : string := join (join a b) c.

(** [os.path.dirname(p)]: [head = p[:p.rfind('/') + 1]], stripped of its
    trailing separators unless it consists of separators only. The two
    helpers work on the reversed path. *)
Fixpoint drop_to_sep (r : string) : string :=
  match r with
  | EmptyString => EmptyString
  | String c r' => if Ascii.eqb c "/" then r else drop_to_sep r'
  end.

Fixpoint lstrip_sep (r : string) : string :=
  match r with
  | EmptyString => EmptyString
  | String c r' => if Ascii.eqb c "/" then lstrip_sep r' else r
  end.

Definition dirname (p : string) : string :=
  let head_rev := drop_to_sep (String.rev p) in
  match lstrip_sep head_rev with
  | EmptyString => String.rev head_rev
  | stripped => String.rev stripped
  end.

End OsPath.

(** ** Python numbers *)

Module Number.

(** A finite [float], that is an IEEE 754 double: the value
    [mant * 2^expo]. The mantissa of a double is below 2^53 in absolute
    value and its exponent is at least -1074; the functions below are
    defined on every pair, and pairs of equal value give results of equal
    value. *)
Record float := {
  mant : Z;
  expo : Z
}.

Definition to_Q (f : float) : Q :=
  if (0 <=? expo f)%Z
  then inject_Z (mant f * 2 ^ expo f)
  else mant f # Z.to_pos (2 ^ (- expo f)).

(** [m / 2^k] rounded to the nearest integer, a tie going to the even
    one. *)
Definition round_half_even (m k : Z) : Z :=
  let q := (m / 2 ^ k)%Z in
  let r := (m mod 2 ^ k)%Z in
  let h := (2 ^ (k - 1))%Z in
  if (r <? h)%Z then q
  else if (h <? r)%Z then (q + 1)%Z
  else if Z.even q then q else (q + 1)%Z.

(** The number of binary digits of [m]. *)
Definition bits (m : Z) : Z :=
  if (m =? 0)%Z then 0%Z else (Z.log2 (Z.abs m) + 1)%Z.

(** The double nearest to [m * 2^e] (round to nearest, ties to even): the
    value itself when [m] has at most 53 digits, and otherwise [m] rounded
    to 53 digits. *)
Definition round53 (m e : Z) : float :=
  let k := (bits m - 53)%Z in
  if (k <=? 0)%Z
  then {| mant := m; expo := e |}
  else {| mant := round_half_even m k; expo := (e + k)%Z |}.

(** [f * n] for a float [f] and the number [n] of rows of a frame: Python
    turns [n] into a float, which is exact for every count below 2^53, and
    rounds the product of the two doubles. The product is taken of a float
    between 0 and 1 only: the exponent of the result is not below that of
    [f] and the result is not above [n], so nothing underflows or
    overflows. A count of 2^53 or more is beyond any frame (the positions
    of the rows are held in memory for the split); there the product is
    left as it is. *)
Definition mul_count (f : float) (n : nat) : float :=
  let m := (mant f * Z.of_nat n)%Z in
  if (Z.of_nat n <? 2 ^ 53)%Z
  then round53 m (expo f)
  else {| mant := m; expo := expo f |}.

(** [math.ceil(f)] *)
Definition ceil (f : float) : Z := Qceiling (to_Q f).

(** The numbers a configuration can hold as its split ratio. The field is
    annotated [float], which Python does not enforce; an [int] is a
    different value to the library that receives it. *)
Inductive Number : Type :=
| PyInt (z : Z)
| PyFloat (f : float)
| PyInf (negative : bool)
| PyNaN.

(** The number lies strictly between 0 and 1. *)
Definition in_unit_interval (r : Number) : Prop :=
  match r with
  | PyInt z => (0 < z < 1)%Z
  | PyFloat f => (0 < to_Q f /\ to_Q f < 1)%Q
  | PyInf _ | PyNaN => False
  end.

End Number.

(** ** [src/constants/__init__.py] and [src/entity/config_entity.py] *)

Module Config.

Definition PIPELINE_NAME : string := EmptyString.
Definition ARTIFACT_DIR : string := "artifact".
Definition MODEL_FILE_NAME : string := "model.pkl".
Definition PREPROCSSING_OBJECT_FILE_NAME : string := "preprocessing.pkl".
Definition FILE_NAME : string := "data.csv".
Definition TRAIN_FILE_NAME : string := "train.csv".
Definition TEST_FILE_NAME : string := "test.csv".
Definition DATABASE_NAME : string := "Proj1".
Definition MONGODB_URL_KEY : string := "MONGODB_URL".

Definition DATA_INGESTION_COLLECTION_NAME : string := "Proj1-Data".
Definition DATA_INGESTION_DIR_NAME : string := "data_ingestion".
Definition DATA_INGESTION_FEATURE_STORE_DIR : string := "feature_store".
Definition DATA_INGESTION_INGESTED_DIR : string := "ingested".
(** [0.25], the double [1 * 2^-2] *)
Definition DATA_INGESTION_TRAIN_TEST_SPLIT_RATIO : Number.Number :=
  Number.PyFloat {| Number.mant := 1; Number.expo := -2 |}.

Definition DATA_VALIDATION_DIR_NAME : string := "data_validation".
Definition DATA_VALIDATION_REPORT_FILE_NAME : string := "report.yaml".

Definition DATA_TRANSFORMATION_DIR_NAME : string := "data_transformation".
Definition DATA_TRANSFORMATION_TRANSFORMED_DATA_DIR : string := "transformed".
Definition DATA_TRANSFORMATION_TRANSFORMED_OBJECT_DIR : string :=
  "transformed_object".

Definition MODEL_TRAINER_DIR_NAME : string := "model_trainer".
Definition MODEL_TRAINER_TRAINED_MODEL_DIR : string := "trained_model".
Definition MODEL_TRAINER_EXPECTED_SCORE : Q := 6 # 10.
Definition MODEL_TRAINER_MODEL_CONFIG_FILE_PATH : string :=
  OsPath.join "config" "model.yaml".

Definition MODEL_EVALUATION_CHANGED_THRESHOLD_SCORE : Q := 2 # 100.
Definition MODEL_BUCKET_NAME : string := "my-model-mlopsproj".

(** [datetime.now()], as far as [strftime] below reads it. *)
Record datetime := {
  month : nat; day : nat; year : nat;
  hour : nat; minute : nat; second : nat
}.

Definition digit (n : nat) : ascii := ascii_of_nat (48 + n mod 10).

(** [%m], [%d], [%H], [%M], [%S]: two digits, zero padded. *)
Definition pad2 (n : nat) : string :=
  String (digit (n / 10)) (String (digit n) EmptyString).

(** [%Y]: four digits. *)
Definition pad4 (n : nat) : string :=
  String (digit (n / 1000)) (String (digit (n / 100)) (pad2 n)).

(** [strftime("%m_%d_%Y_%H_%M_%S")] *)
Definition strftime (t : datetime) : string :=
  pad2 (month t) +:+ "_" +:+ pad2 (day t) +:+ "_" +:+ pad4 (year t) +:+ "_"
  +:+ pad2 (hour t) +:+ "_" +:+ pad2 (minute t) +:+ "_" +:+ pad2 (second t).

(** [s.replace(old, new)] for a non-empty [old]: occurrences are replaced
    from left to right without overlap; [skip] counts the characters of an
    occurrence still to be passed over. *)
Fixpoint replace_go (old new : string) (skip : nat) (s : string) : string :=
  match s with
  | EmptyString => EmptyString
  | String c r =>
      match skip with
      | S k => replace_go old new k r
      | O => if String.prefix old s
             then new +:+ replace_go old new (String.length old - 1) r
             else String c (replace_go old new 0 r)
      end
  end.

Definition str_replace (s old new : string) : string := replace_go old new 0 s.

Record TrainingPipelineConfig := {
  pipeline_name : string;
  artifact_dir : string;
  timestamp : string
}.

Record DataIngestionConfig := {
  data_ingestion_dir : string;
  feature_store_file_path : string;
  training_file_path : string;
  testing_file_path : string;
  train_test_split_ratio : Number.Number;
  collection_name : string
}.

Record DataValidationConfig := {
  data_validation_dir : string;
  validation_report_file_path : string
}.

Record DataTransformationConfig := {
  data_transformation_dir : string;
  transformed_train_file_path : string;
  transformed_test_file_path : string;
  transformed_object_file_path : string
}.

Record ModelTrainerConfig := {
  model_trainer_dir : string;
  trained_model_file_path : string;
  expected_accuracy : Q;
  model_config_file_path : string
}.

Record ModelEvaluationConfig := {
  changed_threshold_score : Q;
  eval_bucket_name : string;
  eval_s3_model_key_path : string
}.

Record ModelPusherConfig := {
  pusher_bucket_name : string;
  pusher_s3_model_key_path : string
}.

(** The module is loaded once per process: everything below is computed
    from the one [TIMESTAMP] taken at that moment. *)
Section Loaded.

Variable now : datetime.

Definition TIMESTAMP : string := strftime now.

Definition training_pipeline_config : TrainingPipelineConfig :=
  {| pipeline_name := PIPELINE_NAME;
     artifact_dir := OsPath.join ARTIFACT_DIR TIMESTAMP;
     timestamp := TIMESTAMP |}.

(** [DataIngestionConfig()] *)
Definition default_DataIngestionConfig : DataIngestionConfig :=
  let dir := OsPath.join (artifact_dir training_pipeline_config)
                         DATA_INGESTION_DIR_NAME in
  {| data_ingestion_dir := dir;
     feature_store_file_path :=
       OsPath.join3 dir DATA_INGESTION_FEATURE_STORE_DIR FILE_NAME;
     training_file_path :=
       OsPath.join3 dir DATA_INGESTION_INGESTED_DIR TRAIN_FILE_NAME;
     testing_file_path :=
       OsPath.join3 dir DATA_INGESTION_INGESTED_DIR TEST_FILE_NAME;
     train_test_split_ratio := DATA_INGESTION_TRAIN_TEST_SPLIT_RATIO;
     collection_name := DATA_INGESTION_COLLECTION_NAME |}.

(** [DataValidationConfig()] *)
Definition default_DataValidationConfig : DataValidationConfig :=
  let dir := OsPath.join (artifact_dir training_pipeline_config)
                         DATA_VALIDATION_DIR_NAME in
  {| data_validation_dir := dir;
     validation_report_file_path :=
       OsPath.join dir DATA_VALIDATION_REPORT_FILE_NAME |}.

(** [DataTransformationConfig()] *)
Definition default_DataTransformationConfig : DataTransformationConfig :=
  let dir := OsPath.join (artifact_dir training_pipeline_config)
                         DATA_TRANSFORMATION_DIR_NAME in
  {| data_transformation_dir := dir;
     transformed_train_file_path :=
       OsPath.join3 dir DATA_TRANSFORMATION_TRANSFORMED_DATA_DIR
                    (str_replace TRAIN_FILE_NAME "csv" "npy");
     transformed_test_file_path :=
       OsPath.join3 dir DATA_TRANSFORMATION_TRANSFORMED_DATA_DIR
                    (str_replace TEST_FILE_NAME "csv" "npy");
     transformed_object_file_path :=
       OsPath.join3 dir DATA_TRANSFORMATION_TRANSFORMED_OBJECT_DIR
                    PREPROCSSING_OBJECT_FILE_NAME |}.

(** [ModelTrainerConfig()] *)
Definition default_ModelTrainerConfig : ModelTrainerConfig :=
  let dir := OsPath.join (artifact_dir training_pipeline_config)
                         MODEL_TRAINER_DIR_NAME in
  {| model_trainer_dir := dir;
     trained_model_file_path :=
       OsPath.join3 dir MODEL_TRAINER_TRAINED_MODEL_DIR MODEL_FILE_NAME;
     expected_accuracy := MODEL_TRAINER_EXPECTED_SCORE;
     model_config_file_path := MODEL_TRAINER_MODEL_CONFIG_FILE_PATH |}.

(** [ModelEvaluationConfig()] *)
Definition default_ModelEvaluationConfig : ModelEvaluationConfig :=
  {| changed_threshold_score := MODEL_EVALUATION_CHANGED_THRESHOLD_SCORE;
     eval_bucket_name := MODEL_BUCKET_NAME;
     eval_s3_model_key_path := MODEL_FILE_NAME |}.

(** [ModelPusherConfig()] *)
Definition default_ModelPusherConfig : ModelPusherConfig :=
  {| pusher_bucket_name := MODEL_BUCKET_NAME;
     pusher_s3_model_key_path := MODEL_FILE_NAME |}.

(** The paths a stage writes to, per default configuration. *)
Definition ingestion_output_paths : list string :=
  let c := default_DataIngestionConfig in
  [data_ingestion_dir c; feature_store_file_path c;
   training_file_path c; testing_file_path c].

Definition validation_output_paths : list string :=
  let c := default_DataValidationConfig in
  [data_validation_dir c; validation_report_file_path c].

Definition transformation_output_paths : list string :=
  let c := default_DataTransformationConfig in
  [data_transformation_dir c; transformed_train_file_path c;
   transformed_test_file_path c; transformed_object_file_path c].

Definition trainer_output_paths : list string :=
  let c := default_ModelTrainerConfig in
  [model_trainer_dir c; trained_model_file_path c].

End Loaded.

(** [p] lies below directory [root]. *)
Definition under (root p : string) : Prop :=
  exists rest, p = root +:+ "/" +:+ rest.

End Config.

(** ** [src/entity/artifact_entity.py] *)

Module Artifact.

Record DataIngestionArtifact := {
  trained_file_path : string;
  test_file_path : string
}.

Record DataValidationArtifact := {
  validation_status : bool;
  message : string;
  validation_report_file_path : string
}.

Record DataTransformationArtifact := {
  transformed_object_file_path : string;
  transformed_train_file_path : string;
  transformed_test_file_path : string
}.

Record ClassificationMetricArtifact := {
  f1_score : Q;
  precision_score : Q;
  recall_score : Q
}.

Record ModelTrainerArtifact := {
  trained_model_file_path : string;
  metric_artifact : ClassificationMetricArtifact
}.

Record ModelEvaluationArtifact := {
  is_model_accepted : bool;
  changed_accuracy : Q;
  s3_model_path : string;
  trained_model_path : string
}.

Record ModelPusherArtifact := {
  bucket_name : string;
  pusher_s3_model_path : string
}.

End Artifact.

(** ** Tabular data: the part of [pandas.DataFrame] the ingestion uses *)

Module Frame.

(** A value of a document field or of a table cell. *)
Inductive cell : Type :=
| VStr (s : string)
| VInt (z : Z)
| VObjectId (hex : string)
| VNaN.

(** A MongoDB document: its fields in order. *)
Definition document : Type := list (string * cell).

Fixpoint doc_get (k : string) (d : document) : option cell :=
  match d with
  | [] => None
  | (k', v) :: r => if decide (k' = k) then Some v else doc_get k r
  end.

(** A frame is stored by column; [nrows] is the length of its index, which
    a frame keeps even when it has no column left. *)
Record DataFrame := {
  nrows : nat;
  data : list (string * list cell)
}.

Definition columns (df : DataFrame) : list string := map fst (data df).

(** The keys of [ks] in the order of their first appearance. *)
Fixpoint first_seen (seen ks : list string) : list string :=
  match ks with
  | [] => []
  | k :: r =>
      if decide (k ∈ seen) then first_seen seen r
      else k :: first_seen (k :: seen) r
  end.

(** [pd.DataFrame(list_of_documents)]: one column per key that occurs, a
    missing field reads as NaN. *)
Definition of_documents (docs : list document) : DataFrame :=
  let keys := first_seen [] (concat (map (map fst) docs)) in
  {| nrows := length docs;
     data := map (fun k => (k, map (fun d => default VNaN (doc_get k d)) docs))
                 keys |}.

(** [df.drop(columns=[name], axis=1)] for a column that is present. *)
Definition drop_column (name : string) (df : DataFrame) : DataFrame :=
  {| nrows := nrows df;
     data := filter (fun kv => kv.1 ≠ name) (data df) |}.

Definition replace_cell (old : string) (new : cell) (c : cell) : cell :=
  match c with
  | VStr s => if decide (s = old) then new else c
  | _ => c
  end.

(** [df.replace({old: new}, inplace=True)] for a string [old]. *)
Definition replace (old : string) (new : cell) (df : DataFrame) : DataFrame :=
  {| nrows := nrows df;
     data := map (fun kv => (kv.1, map (replace_cell old new) kv.2)) (data df) |}.

(** The rows at positions [idx], in that order (what [_safe_indexing]
    returns for a list of positions). *)
Definition take_rows (idx : list nat) (df : DataFrame) : DataFrame :=
  {| nrows := length idx;
     data := map (fun kv => (kv.1, map (fun i => nth i kv.2 VNaN) idx))
                 (data df) |}.

(** Every cell of the frame. *)
Definition cells (df : DataFrame) : list cell := concat (map snd (data df)).

End Frame.

(** ** [sklearn.model_selection.train_test_split]

    The library is not part of the repository. Its row-count computation
    ([_validate_shuffle_split]) and the way [ShuffleSplit] cuts a permutation
    of the row positions are embedded as the library defines them, for the
    only call the ingestion makes: a [test_size], no [train_size], no
    [random_state], shuffling on. *)

Module Sklearn.

Import Number.

(** The library's refusals are [ValueError]s (in the releases that check
    the parameters on entry, of its subclass [InvalidParameterError]). The
    wording depends on the release; the messages here are the templates of
    [_validate_shuffle_split], without the numbers Python fills in. *)
Definition test_size_refused : Exn :=
  ValueError "test_size={0} should be either positive and smaller than the number of samples {1} or a float in the (0, 1) range".

Definition train_set_empty : Exn :=
  ValueError "With n_samples={}, test_size={} and train_size={}, the resulting train set will be empty. Adjust any of the aforementioned parameters.".

Definition nan_refused : Exn :=
  ValueError "cannot convert float NaN to integer".

(** The range check on [test_size]: an [int] has to be positive and smaller
    than the number of rows, a [float] has to lie strictly between 0 and 1.
    Every comparison with NaN is false, so NaN passes this check. *)
Definition test_size_in_range (n_samples : nat) (test_size : Number) : bool :=
  match test_size with
  | PyInt k => negb ((Z.of_nat n_samples <=? k)%Z || (k <=? 0)%Z)
  | PyFloat f => negb (Qle_bool (to_Q f) 0 || Qle_bool 1 (to_Q f))
  | PyInf _ => false
  | PyNaN => true
  end.

(** [n_test]: an [int] is the number of test rows itself (it passes through
    a float, which is the same number for an int below 2^53), a [float] is a
    share of the rows, the float product rounded up by [math.ceil], which
    refuses what is not finite. *)
Definition n_test_of (n_samples : nat) (test_size : Number) : Result Z :=
  match test_size with
  | PyInt k => inr k
  | PyFloat f => inr (ceil (mul_count f n_samples))
  | PyInf _ =>
      inl (PyError "OverflowError" "cannot convert float infinity to integer")
  | PyNaN => inl nan_refused
  end.

(** [_validate_shuffle_split(n_samples, test_size, None)]: the sizes of the
    two parts, or the library's error. *)
Definition validate_shuffle_split (n_samples : nat) (test_size : Number)
  : Result (nat * nat) :=
  if negb (test_size_in_range n_samples test_size)
  then inl test_size_refused
  else
    match n_test_of n_samples test_size with
    | inl e => inl e
    | inr n_test =>
        let n_train := (Z.of_nat n_samples - n_test)%Z in
        if (n_train =? 0)%Z
        then inl train_set_empty
        else inr (Z.to_nat n_train, Z.to_nat n_test)
    end.

(** The number of test rows the library takes from [n_samples] rows when
    [test_size] is a finite number. *)
Definition test_share (n_samples : nat) (test_size : Number) : Z :=
  match n_test_of n_samples test_size with
  | inr n_test => n_test
  | inl _ => 0%Z
  end.

Fixpoint insert_at (k x : nat) (l : list nat) : list nat :=
  match k, l with
  | S k', y :: l' => y :: insert_at k' x l'
  | _, _ => x :: l
  end.

(** [rng.permutation(n)]. The generator is a stream of draws; numpy's own
    algorithm is not reproduced, but every order of the positions is the
    result of some stream. One draw is used per position. *)
Fixpoint shuffle (draws : nat -> nat) (l : list nat) : list nat :=
  match l with
  | [] => []
  | x :: r =>
      let p := shuffle (fun i => draws (S i)) r in
      insert_at (draws 0 mod S (length p)) x p
  end.

Definition permutation (draws : nat -> nat) (n : nat) : list nat :=
  shuffle draws (seq 0 n).

(** [train_test_split(df, test_size=test_size)]: the train part and the
    test part. *)
Definition train_test_split (draws : nat -> nat) (df : Frame.DataFrame)
    (test_size : Number) : Result (Frame.DataFrame * Frame.DataFrame) :=
  match validate_shuffle_split (Frame.nrows df) test_size with
  | inl e => inl e
  | inr (n_train, n_test) =>
      let perm := permutation draws (Frame.nrows df) in
      let ind_test := take n_test perm in
      let ind_train := take n_train (drop n_test perm) in
      inr (Frame.take_rows ind_train df, Frame.take_rows ind_test df)
  end.

(** The sizes of the parts of an outcome. *)
Definition row_counts (res : Result (Frame.DataFrame * Frame.DataFrame))
  : Result (nat * nat) :=
  match res with
  | inl e => inl e
  | inr (train, test) => inr (Frame.nrows train, Frame.nrows test)
  end.

End Sklearn.

(** ** Effects: state, exceptions, [try]/[except] *)

(** A computation over a state [S] that returns a value or raises. State
    changes made before an exception is raised are kept, as in Python. *)
Definition M (S A : Type) : Type := S -> Result A * S.

Definition ret {S A} (a : A) : M S A := fun s => (inr a, s).

Definition raise {S A} (e : Exn) : M S A := fun s => (inl e, s).

Definition bind {S A B} (m : M S A) (k : A -> M S B) : M S B :=
  fun s => match m s with
           | (inl e, s') => (inl e, s')
           | (inr a, s') => k a s'
           end.

(** [try: body except Exception as e: handler(e)] *)
Definition try_except {S A} (body : M S A) (handler : Exn -> M S A) : M S A :=
  fun s => match body s with
           | (inl e, s') => handler e s'
           | (inr a, s') => (inr a, s')
           end.

Definition gets {S A} (f : S -> A) : M S A := fun s => (inr (f s), s).

(** A step that returns or raises without touching the state. *)
Definition of_result {S A} (r : Result A) : M S A := fun s => (r, s).

Definition modify {S} (f : S -> S) : M S unit := fun s => (inr tt, f s).

Notation "'let!' x ':=' m 'in' k" := (bind m (fun x => k))
  (at level 10, x name, m at level 100, k at level 200,
   format "'[v' 'let!'  x  ':='  m  'in' '/' k ']'").
Notation "m '>>' k" := (bind m (fun _ => k))
  (at level 100, k at level 200, right associativity).

(** ** The world a run acts on *)

(** A record of the logger. [ERROR msg e] is the message [msg] followed by
    [str(e)]; how [MyException] prints is decided in [src/exception.py],
    which is not part of the sources. *)
Inductive LogRecord : Type :=
| INFO (msg : string)
| ERROR (msg : string) (e : Exn).

Record World := {
  (** what the run has written, under the path it was written to. A path is
      the string the run used: two spellings of one file are two keys, and a
      lookup tells what was last written under that spelling *)
  fs : gmap string Frame.DataFrame;
  (** records of [src.logger.logging], oldest first *)
  log : list LogRecord;
  (** [os.environ] *)
  environ : gmap string string;
  (** the class attribute [MongoDBClient.client]: the URL it was made with *)
  shared_client : option string;
  (** the draws numpy's global generator will hand out *)
  rng : nat -> nat;
  (** outside the process: the exception [pymongo.MongoClient(url)] raises,
      if any *)
  mongo_connect : string -> option Exn;
  (** outside the process: what [list(database[collection_name].find())]
      gives for the client of a URL, a database name and a collection name:
      the documents, or the error of the driver (a collection name it
      refuses, a server that does not answer) *)
  mongo_find : string -> string -> string -> Result (list Frame.document);
  (** outside the process: the error with which the operation the run
      performs on a path (creating a directory, writing a file) fails, if
      any *)
  io_fault : string -> option Exn
}.

Definition set_fs (f : gmap string Frame.DataFrame) (w : World) : World :=
  {| fs := f; log := log w; environ := environ w;
     shared_client := shared_client w; rng := rng w;
     mongo_connect := mongo_connect w; mongo_find := mongo_find w;
     io_fault := io_fault w |}.

Definition set_log (l : list LogRecord) (w : World) : World :=
  {| fs := fs w; log := l; environ := environ w;
     shared_client := shared_client w; rng := rng w;
     mongo_connect := mongo_connect w; mongo_find := mongo_find w;
     io_fault := io_fault w |}.

Definition set_shared_client (c : option string) (w : World) : World :=
  {| fs := fs w; log := log w; environ := environ w;
     shared_client := c; rng := rng w;
     mongo_connect := mongo_connect w; mongo_find := mongo_find w;
     io_fault := io_fault w |}.

Definition set_rng (r : nat -> nat) (w : World) : World :=
  {| fs := fs w; log := log w; environ := environ w;
     shared_client := shared_client w; rng := r;
     mongo_connect := mongo_connect w; mongo_find := mongo_find w;
     io_fault := io_fault w |}.

(** [logging.info(msg)] *)
Definition logging_info (msg : string) : M World unit :=
  modify (fun w => set_log (log w ++ [INFO msg]) w).

(** [logging.error(msg + str(e))] *)
Definition logging_error (msg : string) (e : Exn) : M World unit :=
  modify (fun w => set_log (log w ++ [ERROR msg e]) w).

(** [os.makedirs(dir_path, exist_ok=True)] *)
Definition os_makedirs (dir_path : string) : M World unit :=
  fun w =>
    match dir_path with
    | EmptyString =>
        (inl (PyError "FileNotFoundError" "No such file or directory"), w)
    | _ => match io_fault w dir_path with
           | Some e => (inl e, w)
           | None => (inr tt, w)
           end
    end.

(** [df.to_csv(path, index=False, header=True)]: the file at [path] now
    holds the frame. *)
Definition to_csv (df : Frame.DataFrame) (path : string) : M World unit :=
  fun w =>
    match path with
    | EmptyString =>
        (inl (PyError "FileNotFoundError" "No such file or directory"), w)
    | _ => match io_fault w path with
           | Some e => (inl e, w)
           | None => (inr tt, set_fs (<[path := df]> (fs w)) w)
           end
    end.

(** A path at which the run meets no failure when it creates or writes it. *)
Definition writable (w : World) (path : string) : Prop :=
  path <> EmptyString /\ io_fault w path = None.

(** The number of rows of the file at a path, if there is a file. *)
Definition written_rows (w : World) (path : string) : option nat :=
  Frame.nrows <$> fs w !! path.

(** [train_test_split(df, test_size=ratio)] with numpy's global generator:
    one draw per row is consumed when the sizes are accepted. *)
Definition train_test_split (df : Frame.DataFrame)
    (test_size : Number.Number)
  : M World (Frame.DataFrame * Frame.DataFrame) :=
  fun w =>
    match Sklearn.train_test_split (rng w) df test_size with
    | inl e => (inl e, w)
    | inr parts =>
        (inr parts, set_rng (fun i => rng w (i + Frame.nrows df)) w)
    end.

(** ** [src/configuration/mongo_db_connection.py] and
       [src/data_access/proj1_data.py] *)

Module Mongo.

Record MongoDBClient := {
  client : string;
  database_name : string
}.

(** [c in name] for a character. *)
Fixpoint occurs (c : ascii) (name : string) : bool :=
  match name with
  | EmptyString => false
  | String d rest => Ascii.eqb c d || occurs c rest
  end.

Definition InvalidName (msg : string) : Exn := PyError "InvalidName" msg.

(** The characters pymongo refuses in a database name, in the order in
    which it looks for them, each with its [repr]: the space, the dot, the
    dollar, the slash, the backslash, the null character and the double
    quote. *)
Definition invalid_chars : list (ascii * string) :=
  [ (" "%char, "' '"); ("."%char, "'.'"); ("$"%char, "'$'"); ("/"%char, "'/'");
    ("\"%char, "'\\'"); (Ascii.zero, "'\x00'");
    (ascii_of_nat 34, String "'" (String (ascii_of_nat 34) "'")) ].

(** pymongo's [_check_name(name)] *)
Definition check_name (name : string) : Result unit :=
  match name with
  | EmptyString => inl (InvalidName "database name cannot be the empty string")
  | _ =>
      match List.find (fun cr => occurs cr.1 name) invalid_chars with
      | Some cr =>
          inl (InvalidName ("database names cannot contain the character "
                            +:+ cr.2))
      | None => inr tt
      end
  end.

(** [client[database_name]]: pymongo builds the [Database] without talking
    to the server, after checking the name (["$external"] is exempt). *)
Definition get_database (name : string) : Result unit :=
  if String.eqb name "$external" then inr tt else check_name name.

(** [MongoDBClient.__init__]: the connection is made once per process and
    shared by all instances. The shared client is stored before the database
    is looked up, so it stays when the name is refused. *)
Definition MongoDBClient_init (db_name : string) : M World MongoDBClient :=
  try_except
    (let! shared := gets shared_client in
     let! url :=
       match shared with
       | Some url => ret url
       | None =>
           let! mongo_db_url := gets (fun w => environ w !! Config.MONGODB_URL_KEY) in
           match mongo_db_url with
           | None =>
               raise (PlainException
                        "Environment variable 'MONGODB_URL' is not set.")
           | Some url =>
               let! failure := gets (fun w => mongo_connect w url) in
               match failure with
               | Some e => raise e
               | None => modify (set_shared_client (Some url)) >> ret url
               end
           end
       end in
     of_result (get_database db_name) >>
     logging_info "MongoDB connection successful." >>
     ret {| client := url; database_name := db_name |})
    (fun e => raise (MyException e)).

(** [Proj1Data.__init__] *)
Definition Proj1Data_init : M World MongoDBClient :=
  try_except (MongoDBClient_init Config.DATABASE_NAME)
             (fun e => raise (MyException e)).

(** Steps 3 and 4 of [export_collection_as_dataframe]: drop the column
    ["id"] when there is one, then turn every ["na"] into NaN. *)
Definition clean (df : Frame.DataFrame) : Frame.DataFrame :=
  let df := if decide ("id" ∈ Frame.columns df)
            then Frame.drop_column "id" df else df in
  Frame.replace "na" Frame.VNaN df.

(** [Proj1Data.export_collection_as_dataframe]. With a [database_name] the
    method subscripts the [MongoDBClient] wrapper itself, which Python
    refuses. The two [print] calls write to standard output only. *)
Definition export_collection_as_dataframe (mongo_client : MongoDBClient)
    (collection_name : string) (db_name : option string)
  : M World Frame.DataFrame :=
  try_except
    (let! docs :=
       match db_name with
       | None =>
           fun w => (mongo_find w (client mongo_client)
                                (database_name mongo_client) collection_name, w)
       | Some _ =>
           raise (TypeError "'MongoDBClient' object is not subscriptable")
       end in
     ret (clean (Frame.of_documents docs)))
    (fun e => raise (MyException e)).

End Mongo.

(** ** [src/components/data_ingestion.py] *)

Module Ingestion.

Import Config Artifact.

Definition shape_repr (df : Frame.DataFrame) : string :=
  "(" +:+ pretty (Frame.nrows df) +:+ ", "
      +:+ pretty (length (Frame.data df)) +:+ ")".

Definition artifact_repr (a : DataIngestionArtifact) : string :=
  "DataIngestionArtifact(trained_file_path='" +:+ trained_file_path a
  +:+ "', test_file_path='" +:+ test_file_path a +:+ "')".

Definition export_data_into_feature_store (cfg : DataIngestionConfig)
  : M World Frame.DataFrame :=
  try_except
    (logging_info "Exporting data from mongodb" >>
     let! my_data := Mongo.Proj1Data_init in
     let! dataframe :=
       Mongo.export_collection_as_dataframe my_data (collection_name cfg) None in
     logging_info ("Shape of dataframe: " +:+ shape_repr dataframe) >>
     let path := feature_store_file_path cfg in
     let dir_path := OsPath.dirname path in
     os_makedirs dir_path >>
     logging_info ("Saving exported data into feature store file path: "
                   +:+ path) >>
     to_csv dataframe path >>
     ret dataframe)
    (fun e => raise (MyException e)).

Definition split_data_as_train_test (cfg : DataIngestionConfig)
    (dataframe : Frame.DataFrame) : M World unit :=
  logging_info "Entered split_data_as_train_test method of Data_Ingestion class" >>
  try_except
    (let! parts := train_test_split dataframe (train_test_split_ratio cfg) in
     let train_set := parts.1 in
     let test_set := parts.2 in
     logging_info "Performed train test split on the dataframe" >>
     logging_info "Exited split_data_as_train_test method of Data_Ingestion class" >>
     let dir_path := OsPath.dirname (training_file_path cfg) in
     os_makedirs dir_path >>
     logging_info "Exporting train and test file path." >>
     to_csv train_set (training_file_path cfg) >>
     to_csv test_set (testing_file_path cfg) >>
     logging_info "Exported train and test file path.")
    (fun e => raise (MyException e)).

Definition initiate_data_ingestion (cfg : DataIngestionConfig)
  : M World DataIngestionArtifact :=
  logging_info "Entered initiate_data_ingestion method of Data_Ingestion class" >>
  try_except
    (let! dataframe := export_data_into_feature_store cfg in
     logging_info "Got the data from mongodb" >>
     split_data_as_train_test cfg dataframe >>
     logging_info "Performed train test split on the dataset" >>
     logging_info "Exited initiate_data_ingestion method of Data_Ingestion class" >>
     let data_ingestion_artifact :=
       {| trained_file_path := training_file_path cfg;
          test_file_path := testing_file_path cfg |} in
     logging_info ("Data ingestion artifact: "
                   +:+ artifact_repr data_ingestion_artifact) >>
     ret data_ingestion_artifact)
    (fun e => raise (MyException e)).

End Ingestion.

(** ** Model evaluation *)

Module Evaluation.

Import Config Artifact.

Definition Qgt_bool (x y : Q) : bool := negb (Qle_bool x y).

Section Spec.

(** A deployed model, and the F1 score the statistics library computes
    for it on the test split stored at a path. *)
Variable Model : Type.
Variable f1_on : Model -> string -> Q.

(** Modelled from the spec: [src/components/model_evaluation.py] is not
    part of the sources. Section 4.5: "attempt to load a
    currently-deployed model from the remote artifact store; if none
    exists, accepted=True, score_delta=0. If one exists, load it, run it
    on the same held-out test split used by the trainer, compute its F1
    score, compute delta = new_f1 - old_f1; accepted = delta >
    changed_threshold_score. Records the candidate's local path and the
    remote path it would replace." The remote store maps a key to the
    model kept under it. *)
Definition initiate_model_evaluation (cfg : ModelEvaluationConfig)
    (store : gmap string Model)
    (data_ingestion_artifact : DataIngestionArtifact)
    (model_trainer_artifact : ModelTrainerArtifact)
  : Result ModelEvaluationArtifact :=
  let new_f1 := f1_score (metric_artifact model_trainer_artifact) in
  match store !! eval_s3_model_key_path cfg with
  | None =>
      inr {| is_model_accepted := true;
             changed_accuracy := 0;
             s3_model_path := eval_s3_model_key_path cfg;
             trained_model_path :=
               trained_model_file_path model_trainer_artifact |}
  | Some deployed =>
      let old_f1 := f1_on deployed (test_file_path data_ingestion_artifact) in
      let delta := (new_f1 - old_f1)%Q in
      inr {| is_model_accepted := Qgt_bool delta (changed_threshold_score cfg);
             changed_accuracy := delta;
             s3_model_path := eval_s3_model_key_path cfg;
             trained_model_path :=
               trained_model_file_path model_trainer_artifact |}
  end.

End Spec.

End Evaluation.

(** ** [src/pipline/training_pipeline.py] *)

Module Pipeline.

Import Config Artifact.

(** The six components the orchestrator drives. *)
Inductive Stage : Type :=
| DataIngestion | DataValidation | DataTransformation
| ModelTrainer | ModelEvaluation | ModelPusher.

#[export] Instance Stage_eq_dec : EqDecision Stage.
Proof. solve_decision. Defined.

Definition stage_order : list Stage :=
  [DataIngestion; DataValidation; DataTransformation;
   ModelTrainer; ModelEvaluation; ModelPusher].

Inductive AnyArtifact : Type :=
| OfIngestion (a : DataIngestionArtifact)
| OfValidation (a : DataValidationArtifact)
| OfTransformation (a : DataTransformationArtifact)
| OfTrainer (a : ModelTrainerArtifact)
| OfEvaluation (a : ModelEvaluationArtifact)
| OfPusher (a : ModelPusherArtifact).

Inductive Outcome : Type :=
| Raised (e : Exn)
| Returned (a : AnyArtifact).

(** One invocation of a component: which one, the artifacts it was handed
    (in the order of its parameters), and how it ended. *)
Record Event := {
  stage : Stage;
  given : list AnyArtifact;
  outcome : Outcome
}.

(** A run: the world, and the component invocations so far (oldest first).
    The second part is a record kept for the proofs; no component can
    touch it. *)
Record Run := {
  world : World;
  trace : list Event
}.

Definition start (w : World) : Run := {| world := w; trace := [] |}.

Definition lift {A} (m : M World A) : M Run A :=
  fun r => let (res, w') := m (world r) in
           (res, {| world := w'; trace := trace r |}).

(** Run a component and note the invocation. *)
Definition invoke {A} (s : Stage) (arg : list AnyArtifact)
    (inj : A -> AnyArtifact) (m : M World A) : M Run A :=
  fun r =>
    let (res, w') := m (world r) in
    let o := match res with
             | inl e => Raised e
             | inr a => Returned (inj a)
             end in
    (res, {| world := w';
             trace := trace r ++ [{| stage := s; given := arg; outcome := o |}] |}).

(** The components that are not part of the sources
    ([src/components/data_validation.py], [data_transformation.py],
    [model_trainer.py], [model_evaluation.py], [model_pusher.py]): each is
    its constructor followed by its [initiate_...] method, acting on the
    world in any way and returning its artifact or raising. *)
Record Components := {
  initiate_data_validation :
    DataValidationConfig -> DataIngestionArtifact ->
    M World DataValidationArtifact;
  initiate_data_transformation :
    DataTransformationConfig -> DataIngestionArtifact ->
    DataValidationArtifact -> M World DataTransformationArtifact;
  initiate_model_trainer :
    ModelTrainerConfig -> DataTransformationArtifact ->
    M World ModelTrainerArtifact;
  initiate_model_evaluation :
    ModelEvaluationConfig -> DataIngestionArtifact ->
    ModelTrainerArtifact -> M World ModelEvaluationArtifact;
  initiate_model_pusher :
    ModelPusherConfig -> ModelEvaluationArtifact ->
    M World ModelPusherArtifact
}.

Record TrainPipeline := {
  data_ingestion_config : DataIngestionConfig;
  data_validation_config : DataValidationConfig;
  data_transformation_config : DataTransformationConfig;
  model_trainer_config : ModelTrainerConfig;
  model_evaluation_config : ModelEvaluationConfig;
  model_pusher_config : ModelPusherConfig
}.

(** [TrainPipeline.__init__], in a process whose modules were loaded at
    [now]. *)
Definition TrainPipeline_init (now : datetime) : TrainPipeline :=
  {| data_ingestion_config := default_DataIngestionConfig now;
     data_validation_config := default_DataValidationConfig now;
     data_transformation_config := default_DataTransformationConfig now;
     model_trainer_config := default_ModelTrainerConfig now;
     model_evaluation_config := default_ModelEvaluationConfig;
     model_pusher_config := default_ModelPusherConfig |}.

Definition info (msg : string) : M Run unit := lift (logging_info msg).

Section Orchestrator.

Variable C : Components.
Variable self : TrainPipeline.

Definition start_data_ingestion : M Run DataIngestionArtifact :=
  try_except
    (info "Entered the start_data_ingestion method of TrainPipeline class" >>
     info "Getting the data from mongodb" >>
     let! data_ingestion_artifact :=
       invoke DataIngestion [] OfIngestion
         (Ingestion.initiate_data_ingestion (data_ingestion_config self)) in
     info "Got the train_set and test_set from mongodb" >>
     info "Exited the start_data_ingestion method of TrainPipeline class" >>
     ret data_ingestion_artifact)
    (fun e => raise (MyException e)).

Definition start_data_validation
    (data_ingestion_artifact : DataIngestionArtifact)
  : M Run DataValidationArtifact :=
  info "Entered the start_data_validation method of TrainPipeline class" >>
  try_except
    (let! data_validation_artifact :=
       invoke DataValidation [OfIngestion data_ingestion_artifact] OfValidation
         (initiate_data_validation C (data_validation_config self)
                                   data_ingestion_artifact) in
     info "Performed the data validation operation" >>
     info "Exited the start_data_validation method of TrainPipeline class" >>
     ret data_validation_artifact)
    (fun e => raise (MyException e)).

Definition start_data_transformation
    (data_ingestion_artifact : DataIngestionArtifact)
    (data_validation_artifact : DataValidationArtifact)
  : M Run DataTransformationArtifact :=
  try_except
    (invoke DataTransformation
       [OfIngestion data_ingestion_artifact;
        OfValidation data_validation_artifact] OfTransformation
       (initiate_data_transformation C (data_transformation_config self)
          data_ingestion_artifact data_validation_artifact))
    (fun e => raise (MyException e)).

Definition start_model_trainer
    (data_transformation_artifact : DataTransformationArtifact)
  : M Run ModelTrainerArtifact :=
  try_except
    (invoke ModelTrainer [OfTransformation data_transformation_artifact]
       OfTrainer
       (initiate_model_trainer C (model_trainer_config self)
                               data_transformation_artifact))
    (fun e => raise (MyException e)).

Definition start_model_evaluation
    (data_ingestion_artifact : DataIngestionArtifact)
    (model_trainer_artifact : ModelTrainerArtifact)
  : M Run ModelEvaluationArtifact :=
  try_except
    (invoke ModelEvaluation
       [OfIngestion data_ingestion_artifact; OfTrainer model_trainer_artifact]
       OfEvaluation
       (initiate_model_evaluation C (model_evaluation_config self)
          data_ingestion_artifact model_trainer_artifact))
    (fun e => raise (MyException e)).

Definition start_model_pusher
    (model_evaluation_artifact : ModelEvaluationArtifact)
  : M Run ModelPusherArtifact :=
  try_except
    (invoke ModelPusher [OfEvaluation model_evaluation_artifact] OfPusher
       (initiate_model_pusher C (model_pusher_config self)
                              model_evaluation_artifact))
    (fun e => raise (MyException e)).

Definition run_pipeline : M Run unit :=
  try_except
    (info "Starting data ingestion..." >>
     let! data_ingestion_artifact := start_data_ingestion in
     info "Starting data validation..." >>
     let! data_validation_artifact :=
       start_data_validation data_ingestion_artifact in
     info "Starting data transformation..." >>
     let! data_transformation_artifact :=
       start_data_transformation data_ingestion_artifact
                                 data_validation_artifact in
     info "Starting model training..." >>
     let! model_trainer_artifact :=
       start_model_trainer data_transformation_artifact in
     info "Starting model evaluation..." >>
     let! model_evaluation_artifact :=
       start_model_evaluation data_ingestion_artifact
                              model_trainer_artifact in
     if negb (is_model_accepted model_evaluation_artifact)
     then info "Model not accepted. Stopping pipeline." >> ret tt
     else
       info "Starting model pushing..." >>
       let! model_pusher_artifact :=
         start_model_pusher model_evaluation_artifact in
       info "Pipeline completed successfully.")
    (fun e =>
       lift (logging_error "Error in pipeline execution: " e) >>
       raise (MyException e)).

End Orchestrator.

(** The stages of a trace, and how often a stage occurs in it. *)
Definition stages_of (t : list Event) : list Stage := map stage t.

Definition times (s : Stage) (t : list Event) : nat :=
  length (filter (fun ev => stage ev = s) t).





Definition raised_in (s : Stage) (e : Exn) (t : list Event) : Prop :=
  exists arg, In {| stage := s; given := arg; outcome := Raised e |} t.

Definition returned_in (s : Stage) (a : AnyArtifact) (t : list Event) : Prop :=
  exists arg, In {| stage := s; given := arg; outcome := Returned a |} t.

End Pipeline.

(** ** Sample inputs *)

Module Sample.

Import Frame.

Definition now : Config.datetime :=
  {| Config.month := 1; Config.day := 2; Config.year := 2025;
     Config.hour := 3; Config.minute := 4; Config.second := 5 |}.

(** Four records of the insurance collection, as MongoDB returns them:
    with the key [_id] MongoDB gives every document, and the data's own
    [id]. *)
Definition docs : list document :=
  [ [("_id", VObjectId "665f00a1"); ("id", VInt 1); ("Gender", VStr "Male");
     ("Age", VInt 44); ("Vehicle_Damage", VStr "na"); ("Response", VInt 1)];
    [("_id", VObjectId "665f00a2"); ("id", VInt 2); ("Gender", VStr "na");
     ("Age", VInt 76); ("Vehicle_Damage", VStr "No"); ("Response", VInt 0)];
    [("_id", VObjectId "665f00a3"); ("id", VInt 3); ("Gender", VStr "Female");
     ("Age", VInt 47); ("Vehicle_Damage", VStr "Yes"); ("Response", VInt 1)];
    [("_id", VObjectId "665f00a4"); ("id", VInt 4); ("Gender", VStr "Male");
     ("Age", VInt 21); ("Response", VInt 0)] ].

(** A labelled data set of [n] rows. *)
Definition labelled (n : nat) : DataFrame :=
  {| nrows := n;
     data := [("Age", map (fun i => VInt (Z.of_nat (20 + i))) (seq 0 n));
              ("Response", map (fun i => VInt (Z.of_nat (i mod 2))) (seq 0 n))] |}.

(** A process that has the connection string and meets no failure outside:
    the collection holds [ds]. *)
Definition world_with (ds : list document) : World :=
  {| fs := ∅;
     log := [];
     environ := {[ "MONGODB_URL" := "mongodb+srv://cluster0" ]};
     shared_client := None;
     rng := fun i => 7 * i + 3;
     mongo_connect := fun _ => None;
     mongo_find := fun _ _ _ => inr ds;
     io_fault := fun _ => None |}.

Definition world : World := world_with docs.

Definition cfg : Config.DataIngestionConfig := Config.default_DataIngestionConfig now.

(** The float [1.5], the double [3 * 2^-1]. *)
Definition one_and_a_half : Number.Number :=
  Number.PyFloat {| Number.mant := 3; Number.expo := -1 |}.

(** The float [0.07], the double [5044031582654956 * 2^-56]: its product
    with 100 is the double [7.000000000000001]. *)
Definition seven_hundredths : Number.float :=
  {| Number.mant := 5044031582654956; Number.expo := -56 |}.

(** The float [0.1], the double [7205759403792794 * 2^-56]: its product
    with 10 is the double [1.0]. *)
Definition tenth : Number.float :=
  {| Number.mant := 7205759403792794; Number.expo := -56 |}.

(** The default configuration with another split ratio. *)
Definition cfg_with_ratio (r : Number.Number) : Config.DataIngestionConfig :=
  {| Config.data_ingestion_dir := Config.data_ingestion_dir cfg;
     Config.feature_store_file_path := Config.feature_store_file_path cfg;
     Config.training_file_path := Config.training_file_path cfg;
     Config.testing_file_path := Config.testing_file_path cfg;
     Config.train_test_split_ratio := r;
     Config.collection_name := Config.collection_name cfg |}.

(** The same process with another generator state. *)
Definition reseeded (w : World) : World := set_rng (fun i => 11 * i + 5) w.

(** Stand-ins for the five components that are not part of the sources.
    The trainer reports the F1 score [new_f1] or fails; the evaluation is
    the one of module [Evaluation] against a store that holds the deployed
    models by their F1 score. *)
Definition components (new_f1 : Q) (trainer_fails : bool)
    (store : gmap string Q) : Pipeline.Components :=
  {| Pipeline.initiate_data_validation := fun c dia =>
       logging_info "Data validation" >>
       ret {| Artifact.validation_status := true;
              Artifact.message := EmptyString;
              Artifact.validation_report_file_path :=
                Config.validation_report_file_path c |};
     Pipeline.initiate_data_transformation := fun c dia dva =>
       if Artifact.validation_status dva
       then ret {| Artifact.transformed_object_file_path :=
                     Config.transformed_object_file_path c;
                   Artifact.transformed_train_file_path :=
                     Config.transformed_train_file_path c;
                   Artifact.transformed_test_file_path :=
                     Config.transformed_test_file_path c |}
       else raise (PlainException (Artifact.message dva));
     Pipeline.initiate_model_trainer := fun c dta =>
       if trainer_fails
       then raise (PlainException "No model found with score above the base score")
       else ret {| Artifact.trained_model_file_path :=
                     Config.trained_model_file_path c;
                   Artifact.metric_artifact :=
                     {| Artifact.f1_score := new_f1;
                        Artifact.precision_score := new_f1;
                        Artifact.recall_score := new_f1 |} |};
     Pipeline.initiate_model_evaluation := fun c dia mta w =>
       (Evaluation.initiate_model_evaluation Q (fun m _ => m) c store dia mta, w);
     Pipeline.initiate_model_pusher := fun c mea =>
       logging_info "Uploading new model to S3 bucket" >>
       ret {| Artifact.bucket_name := Config.pusher_bucket_name c;
              Artifact.pusher_s3_model_path := Config.pusher_s3_model_key_path c |}
  |}.

(** The artifacts a run with the default configuration hands to the
    evaluation, for a new model of F1 score [f1]. *)
Definition ingested : Artifact.DataIngestionArtifact :=
  {| Artifact.trained_file_path := Config.training_file_path cfg;
     Artifact.test_file_path := Config.testing_file_path cfg |}.

Definition trained (f1 : Q) : Artifact.ModelTrainerArtifact :=
  {| Artifact.trained_model_file_path :=
       Config.trained_model_file_path (Config.default_ModelTrainerConfig now);
     Artifact.metric_artifact :=
       {| Artifact.f1_score := f1;
          Artifact.precision_score := f1;
          Artifact.recall_score := f1 |} |}.

(** New scores a little below and a little above 0.70 plus the threshold. *)
Definition just_below : Q := (70 # 100) + (2 # 100) - (1 # 1000).
Definition just_above : Q := (70 # 100) + (2 # 100) + (1 # 1000).

(** The store with a deployed model of F1 score 0.70. *)
Definition deployed_070 : gmap string Q := {[ "model.pkl" := 70 # 100 ]}.

Definition pipeline : Pipeline.TrainPipeline := Pipeline.TrainPipeline_init now.

(** The same process without the connection string in its environment. *)
Definition without_url (w : World) : World :=
  {| fs := fs w; log := log w; environ := delete "MONGODB_URL" (environ w);
     shared_client := shared_client w; rng := rng w;
     mongo_connect := mongo_connect w; mongo_find := mongo_find w;
     io_fault := io_fault w |}.

(** The same collection behind a server that does not answer. *)
Definition unreachable (w : World) : World :=
  {| fs := fs w; log := log w; environ := environ w;
     shared_client := shared_client w; rng := rng w;
     mongo_connect := mongo_connect w;
     mongo_find := fun _ _ _ =>
       inl (PyError "ServerSelectionTimeoutError" "No servers found yet");
     io_fault := io_fault w |}.

(** The same process on a disk that refuses one path. *)
Definition refusing (path : string) (w : World) : World :=
  {| fs := fs w; log := log w; environ := environ w;
     shared_client := shared_client w; rng := rng w;
     mongo_connect := mongo_connect w; mongo_find := mongo_find w;
     io_fault := fun p =>
       if decide (p = path)
       then Some (PyError "PermissionError" "Permission denied")
       else io_fault w p |}.

(** The same components behind a validation that finds the columns
    wrong. *)
Definition with_failing_validation (C : Pipeline.Components)
  : Pipeline.Components :=
  {| Pipeline.initiate_data_validation := fun c dia =>
       ret {| Artifact.validation_status := false;
              Artifact.message := "Columns are missing in training dataframe.";
              Artifact.validation_report_file_path :=
                Config.validation_report_file_path c |};
     Pipeline.initiate_data_transformation :=
       Pipeline.initiate_data_transformation C;
     Pipeline.initiate_model_trainer := Pipeline.initiate_model_trainer C;
     Pipeline.initiate_model_evaluation := Pipeline.initiate_model_evaluation C;
     Pipeline.initiate_model_pusher := Pipeline.initiate_model_pusher C |}.

End Sample.

(** ** Vocabulary of the further properties *)

(** Every column of the frame has one cell per row. *)
Definition rectangular (df : Frame.DataFrame) : Prop :=
  Forall (fun kv => length kv.2 = Frame.nrows df) (Frame.data df).

(** The files outside [paths] are the same in both worlds. *)
Definition fs_same_outside (paths : list string) (w w' : World) : Prop :=
  forall p, ~ In p paths -> fs w' !! p = fs w !! p.

(** The log of [w'] is the log of [w] with records added at its end. *)
Definition log_grows (w w' : World) : Prop :=
  exists more, log w' = log w ++ more.

(** What lies outside the process is the same in both worlds. *)
Definition outside_unchanged (w w' : World) : Prop :=
  environ w' = environ w /\ mongo_connect w' = mongo_connect w
  /\ mongo_find w' = mongo_find w /\ io_fault w' = io_fault w.

(** Every run of [m], however it ends, takes a world to one related to it
    by [R]. *)
Definition keeps {A} (R : World -> World -> Prop) (m : M World A) : Prop :=
  forall w res w', m w = (res, w') -> R w w'.



(** What a run of the ingestion with configuration [cfg] may change. *)
Definition ingestion_footprint (cfg : Config.DataIngestionConfig)
    (w w' : World) : Prop :=
  fs_same_outside [Config.feature_store_file_path cfg;
                   Config.training_file_path cfg;
                   Config.testing_file_path cfg] w w'
  /\ log_grows w w'
  /\ outside_unchanged w w'.

(** The process has, or can make, its connection, to the server at [url]. *)
Definition connects (w : World) (url : string) : Prop :=
  shared_client w = Some url
  \/ (shared_client w = None
      /\ environ w !! Config.MONGODB_URL_KEY = Some url
      /\ mongo_connect w url = None).

(** Nothing but the log and the shared client differs between the worlds. *)
Definition same_disk (w w' : World) : Prop :=
  fs w' = fs w /\ io_fault w' = io_fault w /\ rng w' = rng w
  /\ mongo_find w' = mongo_find w.

(** The string holds a path separator. *)
Fixpoint has_sep (s : string) : bool :=
  match s with
  | EmptyString => false
  | String c r => Ascii.eqb c "/" || has_sep r
  end.

(** [n] layers of [MyException] around an exception. *)
Fixpoint wrapped (n : nat) (e : Exn) : Exn :=
  match n with
  | O => e
  | S k => MyException (wrapped k e)
  end.

(** * Properties *)

(** ** Effects *)

Lemma bind_inr_inv {S A B} (m : M S A) (k : A -> M S B) (s s' : S) (b : B) :
  bind m k s = (inr b, s') ->
  exists a s1, m s = (inr a, s1) /\ k a s1 = (inr b, s').
Proof.
  unfold bind. destruct (m s) as [[e | a] s1]; [discriminate | eauto].
Qed.

Lemma bind_inl_inv {S A B} (m : M S A) (k : A -> M S B) (s s' : S) (e : Exn) :
  bind m k s = (inl e, s') ->
  m s = (inl e, s') \/ exists a s1, m s = (inr a, s1) /\ k a s1 = (inl e, s').
Proof.
  unfold bind. destruct (m s) as [[e0 | a] s1]; intros H.
  - left. injection H as -> ->. reflexivity.
  - right. exists a, s1. split; [reflexivity | exact H].
Qed.

Lemma wrap_inr_inv {S A} (m : M S A) (s s' : S) (a : A) :
  try_except m (fun e => raise (MyException e)) s = (inr a, s') ->
  m s = (inr a, s').
Proof.
  unfold try_except, raise. destruct (m s) as [[e | a0] s1]; [discriminate | auto].
Qed.

Lemma wrap_inl_inv {S A} (m : M S A) (s s' : S) (e : Exn) :
  try_except m (fun e => raise (MyException e)) s = (inl e, s') ->
  exists c, e = MyException c /\ m s = (inl c, s').
Proof.
  unfold try_except, raise. destruct (m s) as [[c | a0] s1]; [| discriminate].
  intros [= <- <-]. eauto.
Qed.

Lemma ret_inv {S A} (a b : A) (s s' : S) :
  ret a s = (inr b, s') -> a = b /\ s = s'.
Proof. unfold ret. now intros [= -> ->]. Qed.

(** Take a run that returned apart into the runs of its steps. *)
Ltac run_inv :=
  repeat match goal with
    | H : bind _ _ _ = (inr _, _) |- _ =>
        apply bind_inr_inv in H as (? & ? & ? & H)
    | H : try_except _ (fun e => raise (MyException e)) _ = (inr _, _) |- _ =>
        apply wrap_inr_inv in H
    | H : ret _ _ = (inr _, _) |- _ => apply ret_inv in H as [<- <-]
    end.

(** ** The split sizes *)

Module SklearnFacts.

Import Sklearn.

Import Number.

Local Open Scope Z_scope.

Lemma unit_interval_shape (f : float) :
  (0 < to_Q f /\ to_Q f < 1)%Q ->
  expo f < 0 /\ 0 < mant f < 2 ^ (- expo f).
Proof.
  unfold to_Q. destruct f as [m e]; cbn [mant expo].
  destruct (Z.leb_spec 0 e) as [He | He].
  - intros [H0 H1]. rewrite <- (Zlt_Qlt 0) in H0.
    change 1%Q with (inject_Z 1) in H1. rewrite <- Zlt_Qlt in H1.
    assert (0 < 2 ^ e) by (apply Z.pow_pos_nonneg; lia). nia.
  - intros [H0 H1]. split; [lia |].
    assert (Hp : 0 < 2 ^ (- e)) by (apply Z.pow_pos_nonneg; lia).
    unfold Qlt in H0, H1. cbn [Qnum Qden] in H0, H1.
    rewrite Z2Pos.id in H1 by exact Hp. lia.
Qed.

Lemma round_half_even_bounds (m k : Z) :
  0 < k ->
  m / 2 ^ k <= round_half_even m k <= m / 2 ^ k + 1
  /\ (m mod 2 ^ k = 0 -> round_half_even m k = m / 2 ^ k).
Proof.
  intros Hk. unfold round_half_even.
  assert (Hh : 0 < 2 ^ (k - 1)) by (apply Z.pow_pos_nonneg; lia).
  destruct (Z.ltb_spec (m mod 2 ^ k) (2 ^ (k - 1))); [split; [lia | reflexivity] |].
  destruct (Z.ltb_spec (2 ^ (k - 1)) (m mod 2 ^ k)); [split; [lia | intros; lia] |].
  destruct (Z.even (m / 2 ^ k)); (split; [lia | intros; lia]).
Qed.

(** floor (M / 2^d) <= ceil (q' / 2^(d-k)) <= ceil (M / 2^d) *)
Lemma rounded_between (M A B q' : Z) :
  0 < A -> 0 < B ->
  M / A <= q' <= M / A + 1 ->
  (M mod A = 0 -> q' = M / A) ->
  M / (A * B) <= - ((- q') / B) <= - ((- M) / (A * B))
  /\ (0 < M / A -> 0 < - ((- q') / B)).
Proof.
  intros HA HB Hq Hr.
  assert (HAB : 0 < A * B) by nia.
  pose proof (Z.div_mod M A ltac:(lia)) as E1.
  pose proof (Z.mod_pos_bound M A HA) as B1.
  pose proof (Z.div_mod M (A * B) ltac:(lia)) as E2.
  pose proof (Z.mod_pos_bound M (A * B) HAB) as B2.
  pose proof (Z.div_mod (- q') B ltac:(lia)) as E3.
  pose proof (Z.mod_pos_bound (- q') B HB) as B3.
  pose proof (Z.div_mod (- M) (A * B) ltac:(lia)) as E4.
  pose proof (Z.mod_pos_bound (- M) (A * B) HAB) as B4.
  set (u := M / (A * B)) in *. set (v := (- q') / B) in *.
  set (t := (- M) / (A * B)) in *. set (q := M / A) in *.
  set (r1 := M mod A) in *. set (r2 := M mod (A * B)) in *.
  set (r3 := (- q') mod B) in *. set (r4 := (- M) mod (A * B)) in *.
  split; [split |].
  - assert (u * B <= q) by nia.
    nia.
  - assert (q' <= (- t) * B).
    { destruct (Z.eq_dec r1 0) as [E | E].
      - rewrite (Hr E). nia.
      - assert (q + 1 <= (- t) * B) by nia. lia. }
    nia.
  - intros Hpos. nia.
Qed.

Lemma ceil_nonpos_expo (m e : Z) :
  e <= 0 -> ceil {| mant := m; expo := e |} = - ((- m) / 2 ^ (- e)).
Proof.
  intros He. unfold ceil, to_Q. cbn [mant expo].
  destruct (Z.leb_spec 0 e) as [H0 | H0].
  - assert (e = 0) as -> by lia. rewrite Qceiling_Z. cbn.
    rewrite Z.mul_1_r, Z.div_1_r. lia.
  - assert (Hp : 0 < 2 ^ (- e)) by (apply Z.pow_pos_nonneg; lia).
    unfold Qceiling, Qfloor, Qopp. cbn [Qnum Qden].
    now rewrite Z2Pos.id by exact Hp.
Qed.

Lemma exact_product_rounded (m e : Z) (n : nat) :
  e < 0 ->
  let x := (to_Q {| mant := m; expo := e |} * inject_Z (Z.of_nat n))%Q in
  Qfloor x = (m * Z.of_nat n) / 2 ^ (- e)
  /\ Qceiling x = - ((- (m * Z.of_nat n)) / 2 ^ (- e)).
Proof.
  intros He x. subst x. unfold to_Q. cbn [mant expo].
  destruct (Z.leb_spec 0 e) as [H0 | H0]; [lia |].
  assert (Hp : 0 < 2 ^ (- e)) by (apply Z.pow_pos_nonneg; lia).
  unfold Qceiling, Qfloor, Qopp, Qmult, inject_Z. cbn [Qnum Qden].
  rewrite Pos.mul_1_r, Z2Pos.id by exact Hp.
  split; reflexivity.
Qed.

Lemma bits_spec (M : Z) :
  0 < M -> 2 ^ (bits M - 1) <= M < 2 ^ bits M.
Proof.
  intros HM. unfold bits. destruct (Z.eqb_spec M 0); [lia |].
  rewrite Z.abs_eq by lia.
  pose proof (Z.log2_spec M HM) as [Hlo Hhi].
  replace (Z.log2 M + 1 - 1) with (Z.log2 M) by lia.
  replace (Z.log2 M + 1) with (Z.succ (Z.log2 M)) by lia. lia.
Qed.

(** The float product of a ratio in (0,1) and a row count lies, once rounded
    up, between the exact product rounded down and rounded up; it is
    positive when there is a row. *)
Lemma float_share_bounds (f : float) (n : nat) :
  (0 < to_Q f /\ to_Q f < 1)%Q ->
  let x := (to_Q f * inject_Z (Z.of_nat n))%Q in
  Qfloor x <= ceil (mul_count f n) <= Qceiling x
  /\ (0 < Z.of_nat n -> 0 < ceil (mul_count f n)).
Proof.
  intros Hf x. destruct (unit_interval_shape f Hf) as (He & Hm0 & Hm1).
  destruct f as [m e]. cbn [mant expo] in *.
  destruct (exact_product_rounded m e n He) as [Hfl Hce].
  fold x in Hfl, Hce. rewrite Hfl, Hce. clear Hfl Hce x.
  set (M := m * Z.of_nat n). set (d := - e) in *.
  assert (Hd : 0 < 2 ^ d) by (apply Z.pow_pos_nonneg; lia).
  assert (HM : 0 <= M) by (unfold M; nia).
  assert (Hexact : M / 2 ^ d <= ceil {| mant := M; expo := e |} <= - ((- M) / 2 ^ d)
                   /\ (0 < Z.of_nat n -> 0 < ceil {| mant := M; expo := e |})).
  { rewrite ceil_nonpos_expo by lia. fold d.
    pose proof (rounded_between M 1 (2 ^ d) M ltac:(lia) Hd) as H.
    rewrite Z.mul_1_l, Z.div_1_r in H.
    destruct H as [H1 H2]; [lia | reflexivity |].
    split; [exact H1 |]. intros Hn. apply H2. unfold M. nia. }
  unfold mul_count. cbn [mant expo]. fold M.
  destruct (Z.ltb_spec (Z.of_nat n) (2 ^ 53)) as [Hn | Hn]; [| exact Hexact].
  unfold round53.
  destruct (Z.leb_spec (bits M - 53) 0) as [Hk | Hk]; [exact Hexact |].
  set (k := bits M - 53) in *.
  assert (HMpos : 0 < M).
  { destruct (Z.eq_dec M 0) as [E | E]; [| lia].
    unfold k, bits in Hk. rewrite E in Hk. cbn in Hk. lia. }
  destruct (bits_spec M HMpos) as [Hlo _].
  assert (Hkd : k <= d).
  { assert (Hlt : 2 ^ (bits M - 1) < 2 ^ (d + 53)).
    { rewrite Z.pow_add_r by lia. unfold M in *. nia. }
    apply Z.pow_lt_mono_r_iff in Hlt; lia. }
  rewrite ceil_nonpos_expo by lia.
  replace (- (e + k)) with (d - k) by lia.
  replace (2 ^ d) with (2 ^ k * 2 ^ (d - k))
    by (rewrite <- Z.pow_add_r by lia; f_equal; lia).
  destruct (round_half_even_bounds M k Hk) as [Hq Hr].
  assert (Hk0 : 0 < 2 ^ k) by (apply Z.pow_pos_nonneg; lia).
  destruct (rounded_between M (2 ^ k) (2 ^ (d - k)) (round_half_even M k))
    as [H1 H2]; try assumption; [apply Z.pow_pos_nonneg; lia |].
  split; [exact H1 |]. intros _. apply H2.
  apply Z.div_str_pos. split; [exact Hk0 |].
  apply Z.le_trans with (2 ^ (bits M - 1)); [| exact Hlo].
  apply Z.pow_le_mono_r; lia.
Qed.

(** The exact product of a ratio in (0,1) and a row count lies between 0
    and the count. *)
Lemma exact_share_bounds (f : float) (n : nat) :
  (0 < to_Q f /\ to_Q f < 1)%Q ->
  let x := (to_Q f * inject_Z (Z.of_nat n))%Q in
  0 <= Qfloor x /\ Qceiling x <= Z.of_nat n.
Proof.
  intros Hf x. destruct (unit_interval_shape f Hf) as (He & Hm0 & Hm1).
  destruct f as [m e]. cbn [mant expo] in *.
  destruct (exact_product_rounded m e n He) as [Hfl Hce].
  fold x in Hfl, Hce. rewrite Hfl, Hce.
  assert (Hd : 0 < 2 ^ (- e)) by (apply Z.pow_pos_nonneg; lia).
  split.
  - apply Z.div_pos; [nia | exact Hd].
  - assert (- Z.of_nat n <= (- (m * Z.of_nat n)) / 2 ^ (- e)); [| lia].
    apply Z.div_le_lower_bound; [exact Hd | nia].
Qed.

Lemma in_range_accepted (f : float) :
  (0 < to_Q f /\ to_Q f < 1)%Q ->
  Qle_bool (to_Q f) 0 || Qle_bool 1 (to_Q f) = false.
Proof.
  intros [H0 H1].
  destruct (Qle_bool (to_Q f) 0) eqn:E0.
  { apply Qle_bool_iff in E0. exfalso. apply (Qlt_not_le _ _ H0 E0). }
  destruct (Qle_bool 1 (to_Q f)) eqn:E1.
  { apply Qle_bool_iff in E1. exfalso. apply (Qlt_not_le _ _ H1 E1). }
  reflexivity.
Qed.

Lemma in_range_float (n : nat) (f : float) :
  test_size_in_range n (PyFloat f) = true -> (0 < to_Q f /\ to_Q f < 1)%Q.
Proof.
  cbn. intros H. apply negb_true_iff, orb_false_iff in H as [H0 H1].
  split; apply Qnot_le_lt; intros Hle; apply Qle_bool_iff in Hle; congruence.
Qed.

(** A ratio outside (0,1) is refused whatever the number of rows, unless it
    is a positive [int]. *)
Lemma out_of_range_refused (n : nat) (r : Number) :
  ~ in_unit_interval r -> (forall k, r = PyInt k -> k <= 0) ->
  exists e, validate_shuffle_split n r = inl e.
Proof.
  intros Hout Hint. unfold validate_shuffle_split.
  destruct (test_size_in_range n r) eqn:Hin; cbn [negb]; [| eauto].
  destruct r as [k | f | neg |]; cbn [n_test_of]; eauto.
  - exfalso. cbn in Hin. specialize (Hint k eq_refl).
    apply negb_true_iff, orb_false_iff in Hin as [_ Hk].
    apply Z.leb_gt in Hk. lia.
  - exfalso. apply Hout. exact (in_range_float n f Hin).
Qed.

(** The test share of a float ratio in (0,1): within the exact product
    rounded down and rounded up, not above the number of rows, and positive
    when there is a row. *)
Lemma test_share_bounds (n : nat) (f : float) :
  (0 < to_Q f /\ to_Q f < 1)%Q ->
  let x := (to_Q f * inject_Z (Z.of_nat n))%Q in
  Qfloor x <= test_share n (PyFloat f) <= Qceiling x
  /\ 0 <= test_share n (PyFloat f) <= Z.of_nat n
  /\ (0 < Z.of_nat n -> 0 < test_share n (PyFloat f)).
Proof.
  intros Hf x. cbn [test_share n_test_of].
  destruct (float_share_bounds f n Hf) as [Hb Hpos].
  destruct (exact_share_bounds f n Hf) as [Hlo Hhi].
  fold x in Hb, Hlo, Hhi. repeat split; lia.
Qed.

Lemma validate_accepts (n : nat) (f : float) :
  (0 < to_Q f /\ to_Q f < 1)%Q -> test_share n (PyFloat f) < Z.of_nat n ->
  validate_shuffle_split n (PyFloat f)
  = inr (Z.to_nat (Z.of_nat n - test_share n (PyFloat f)),
         Z.to_nat (test_share n (PyFloat f))).
Proof.
  intros Hr Hlt. unfold validate_shuffle_split. cbn [test_size_in_range].
  rewrite (in_range_accepted f Hr). cbn [negb n_test_of].
  change (ceil (mul_count f n)) with (test_share n (PyFloat f)).
  destruct (Z.eqb_spec (Z.of_nat n - test_share n (PyFloat f)) 0);
    [lia | reflexivity].
Qed.

Lemma validate_refuses_empty_train (n : nat) (f : float) :
  (0 < to_Q f /\ to_Q f < 1)%Q -> test_share n (PyFloat f) = Z.of_nat n ->
  validate_shuffle_split n (PyFloat f) = inl train_set_empty.
Proof.
  intros Hr Heq. unfold validate_shuffle_split. cbn [test_size_in_range].
  rewrite (in_range_accepted f Hr). cbn [negb n_test_of].
  change (ceil (mul_count f n)) with (test_share n (PyFloat f)).
  now rewrite Heq, Z.sub_diag.
Qed.

(** The product is rounded as the machine rounds it: [0.07 * 100] is the
    double [7.000000000000001], which makes 8 test rows of 100, and
    [0.1 * 10] is the double [1.0], which makes 1 test row of 10. *)
Lemma rounded_products :
  validate_shuffle_split 100 (PyFloat Sample.seven_hundredths)
  = inr (92, 8)%nat
  /\ validate_shuffle_split 10 (PyFloat Sample.tenth) = inr (9, 1)%nat.
Proof. split; vm_compute; reflexivity. Qed.

(** Sizes the library accepts: the two parts take all rows between them
    and neither is empty. *)
Lemma accepted_sizes (n n_train n_test : nat) (r : Number) :
  validate_shuffle_split n r = inr (n_train, n_test) ->
  (n_train + n_test = n /\ 0 < n_train /\ 0 < n_test)%nat.
Proof.
  unfold validate_shuffle_split.
  destruct (test_size_in_range n r) eqn:Hin; cbn [negb]; [| discriminate].
  destruct r as [k | f | neg |]; cbn [n_test_of]; try discriminate.
  - cbn in Hin. apply negb_true_iff, orb_false_iff in Hin as [Hn Hk].
    apply Z.leb_gt in Hn, Hk.
    destruct (Z.eqb_spec (Z.of_nat n - k) 0); [discriminate |].
    intros [= <- <-]. lia.
  - apply in_range_float in Hin.
    destruct (test_share_bounds n f Hin) as (_ & [Hlo Hhi] & Hpos).
    cbn [test_share n_test_of] in Hlo, Hhi, Hpos.
    destruct (Z.eqb_spec (Z.of_nat n - ceil (mul_count f n)) 0);
      [discriminate |].
    intros [= <- <-]. lia.
Qed.

Local Close Scope Z_scope.

Lemma length_insert_at (k x : nat) (l : list nat) :
  length (insert_at k x l) = S (length l).
Proof.
  revert k. induction l as [| y l IH]; intros [| k]; simpl; auto.
Qed.

Lemma length_shuffle (l : list nat) (draws : nat -> nat) :
  length (shuffle draws l) = length l.
Proof.
  revert draws. induction l as [| x l IH]; intros draws; simpl; [reflexivity |].
  rewrite length_insert_at. f_equal. apply IH.
Qed.

Lemma length_permutation (draws : nat -> nat) (n : nat) :
  length (permutation draws n) = n.
Proof. unfold permutation. now rewrite length_shuffle, length_seq. Qed.

(** The sizes of the two parts depend on the number of rows and the ratio
    only, never on the draws. *)
Lemma train_test_split_sizes (draws : nat -> nat) (df : Frame.DataFrame)
    (r : Number) :
  match validate_shuffle_split (Frame.nrows df) r with
  | inl e => train_test_split draws df r = inl e
  | inr (n_train, n_test) =>
      exists train test,
        train_test_split draws df r = inr (train, test)
        /\ Frame.nrows train = Nat.min n_train (Frame.nrows df - n_test)
        /\ Frame.nrows test = Nat.min n_test (Frame.nrows df)
  end.
Proof.
  unfold train_test_split.
  destruct (validate_shuffle_split (Frame.nrows df) r) as [e | [n_train n_test]];
    [reflexivity |].
  eexists _, _. split; [reflexivity |]. simpl.
  rewrite !length_take, length_drop, !length_permutation. split; reflexivity.
Qed.

End SklearnFacts.

(** ** The ingestion stage *)

Module IngestionFacts.

Import Config Artifact Ingestion.

Ltac run_step :=
  unfold bind, try_except, raise, ret, logging_info, logging_error, modify,
    gets, os_makedirs, to_csv, train_test_split; simpl.

Lemma logging_info_inv (msg : string) (w w' : World) (u : unit) :
  logging_info msg w = (inr u, w') -> w' = set_log (log w ++ [INFO msg]) w.
Proof. unfold logging_info, modify. now intros [= _ <-]. Qed.





Lemma split_refuses_ratio (cfg : DataIngestionConfig) (df : Frame.DataFrame)
    (w : World) :
  ~ Number.in_unit_interval (train_test_split_ratio cfg) ->
  (forall k, train_test_split_ratio cfg = Number.PyInt k -> (k <= 0)%Z) ->
  exists e w', split_data_as_train_test cfg df w = (inl (MyException e), w').
Proof.
  intros Hr Hint.
  destruct (SklearnFacts.out_of_range_refused (Frame.nrows df) _ Hr Hint)
    as [e He].
  unfold split_data_as_train_test. run_step.
  unfold Sklearn.train_test_split. rewrite He. eauto.
Qed.

Lemma initiate_wraps (cfg : DataIngestionConfig) (w w' : World)
    (res : Result DataIngestionArtifact) :
  initiate_data_ingestion cfg w = (res, w') ->
  (exists e, res = inl (MyException e))
  \/ res = inr {| trained_file_path := training_file_path cfg;
                  test_file_path := testing_file_path cfg |}.
Proof.
  unfold initiate_data_ingestion. intros H.
  destruct res as [e | a]; [left | right].
  - apply bind_inl_inv in H as [H | (? & ? & _ & H)]; [discriminate H |].
    apply wrap_inl_inv in H as (c & -> & _). eauto.
  - run_inv. reflexivity.
Qed.

Lemma makedirs_writable (w : World) (d : string) :
  writable w d -> os_makedirs d w = (inr tt, w).
Proof.
  intros [Hne Hio]. unfold os_makedirs. rewrite Hio.
  destruct d; [contradiction | reflexivity].
Qed.

Lemma to_csv_writable (w : World) (df : Frame.DataFrame) (p : string) :
  writable w p -> to_csv df p w = (inr tt, set_fs (<[p := df]> (fs w)) w).
Proof.
  intros [Hne Hio]. unfold to_csv. rewrite Hio.
  destruct p; [contradiction | reflexivity].
Qed.

(** What a successful split leaves on disk. *)
Lemma split_writes (cfg : DataIngestionConfig) (df train test : Frame.DataFrame)
    (w : World) :
  Sklearn.train_test_split (rng w) df (train_test_split_ratio cfg)
  = inr (train, test) ->
  writable w (OsPath.dirname (training_file_path cfg)) ->
  writable w (training_file_path cfg) ->
  writable w (testing_file_path cfg) ->
  exists w',
    split_data_as_train_test cfg df w = (inr tt, w')
    /\ fs w' = <[testing_file_path cfg := test]>
                 (<[training_file_path cfg := train]> (fs w)).
Proof.
  intros Hsplit Hdir Htrain Htest.
  unfold split_data_as_train_test.
  unfold bind at 1. unfold logging_info at 1, modify.
  unfold try_except, bind at 1. unfold train_test_split at 1.
  cbn [rng set_log]. rewrite Hsplit.
  do 2 (unfold bind at 1; unfold logging_info at 1, modify).
  unfold bind at 1.
  rewrite makedirs_writable by exact Hdir.
  unfold bind at 1; unfold logging_info at 1, modify.
  unfold bind at 1. rewrite to_csv_writable by exact Htrain.
  unfold bind at 1. rewrite to_csv_writable by exact Htest.
  unfold logging_info, modify. eexists. split; reflexivity.
Qed.






End IngestionFacts.

(** ** Claims about the ingestion stage *)

Section IngestionClaims.

Import Config Artifact Ingestion IngestionFacts.

(** C3, as amended. Whenever the configured split ratio lies outside the
    open interval (0,1) and is not a positive [int] (so: a float at or below
    0 or at or above 1, an infinity, NaN, or an int at or below 0),
    [initiate_data_ingestion] raises (the uniform, wrapped error) and
    returns no artifact, in every world. *)
Theorem ingestion_raises_on_ratio_outside_unit_interval
    (cfg : DataIngestionConfig) (w : World) :
  ~ Number.in_unit_interval (train_test_split_ratio cfg) ->
  (forall k, train_test_split_ratio cfg = Number.PyInt k -> (k <= 0)%Z) ->
  exists e w', initiate_data_ingestion cfg w = (inl (MyException e), w').
Proof.
  intros Hr Hint.
  destruct (initiate_data_ingestion cfg w) as [res w'] eqn:Hrun.
  destruct (initiate_wraps _ _ _ _ Hrun) as [[e ->] | ->]; [eauto |].
  exfalso. unfold initiate_data_ingestion in Hrun. run_inv.
  match goal with
  | H : split_data_as_train_test cfg ?df ?w0 = (inr _, _) |- _ =>
      destruct (split_refuses_ratio cfg df w0 Hr Hint) as (e & w1 & He);
      rewrite He in H; discriminate H
  end.
Qed.

Lemma ingestion_raises_on_ratio_outside_unit_interval_witness :
  exists e w',
    initiate_data_ingestion (Sample.cfg_with_ratio Sample.one_and_a_half)
                            Sample.world
    = (inl (MyException e), w').
Proof.
  apply ingestion_raises_on_ratio_outside_unit_interval.
  - intros [_ H]. vm_compute in H. discriminate H.
  - intros k H. discriminate H.
Defined.

(** C3, as stated, fails on a ratio that is an [int]: the ratio 2 lies
    outside (0,1), the library reads it as two test rows, and on the four
    documents of the sample the stage returns its artifact, with two rows in
    each file. *)
Lemma int_ratio_is_a_row_count :
  ~ Number.in_unit_interval (Number.PyInt 2)
  /\ let run := initiate_data_ingestion (Sample.cfg_with_ratio (Number.PyInt 2))
                                        Sample.world in
     fst run = inr Sample.ingested
     /\ written_rows (snd run) (training_file_path Sample.cfg) = Some 2%nat
     /\ written_rows (snd run) (testing_file_path Sample.cfg) = Some 2%nat.
Proof.
  split; [cbn; lia |].
  cbv zeta. repeat split; vm_compute; reflexivity.
Qed.

(** C5, as amended. For a data set of [n] rows, fewer than 2^53 (where a
    row count is a float exactly), and a float split ratio [r] in (0,1)
    whose test share, the float product [r * n] rounded up, is smaller than
    [n], the split produces a train set and a test set whose row counts sum
    to exactly [n]; the test set has the test share as its row count, which
    is [r * n] within rounding: not below the exact product rounded down,
    not above it rounded up. These are the sets the method writes, the
    train set first: when the directory and the two paths can be written,
    the method returns and has written them. *)
Theorem split_row_counts (cfg : DataIngestionConfig) (df : Frame.DataFrame)
    (w : World) (r : Number.float) :
  let n := Frame.nrows df in
  let exact := (Number.to_Q r * inject_Z (Z.of_nat n))%Q in
  train_test_split_ratio cfg = Number.PyFloat r ->
  (0 < Number.to_Q r /\ Number.to_Q r < 1)%Q ->
  (Z.of_nat n < 2 ^ 53)%Z ->
  (Sklearn.test_share n (Number.PyFloat r) < Z.of_nat n)%Z ->
  exists train_set test_set,
    Sklearn.train_test_split (rng w) df (train_test_split_ratio cfg)
    = inr (train_set, test_set)
    /\ (Frame.nrows train_set + Frame.nrows test_set = n)%nat
    /\ Z.of_nat (Frame.nrows test_set) = Sklearn.test_share n (Number.PyFloat r)
    /\ (Qfloor exact <= Z.of_nat (Frame.nrows test_set) <= Qceiling exact)%Z
    /\ (writable w (OsPath.dirname (training_file_path cfg)) ->
        writable w (training_file_path cfg) ->
        writable w (testing_file_path cfg) ->
        exists w',
          split_data_as_train_test cfg df w = (inr tt, w')
          /\ fs w' = <[testing_file_path cfg := test_set]>
                       (<[training_file_path cfg := train_set]> (fs w))).
Proof.
  intros n exact Hcfg Hr _ Hlt.
  pose proof (SklearnFacts.train_test_split_sizes (rng w) df
                (Number.PyFloat r)) as Hsz.
  fold n in Hsz. rewrite (SklearnFacts.validate_accepts n r Hr Hlt) in Hsz.
  destruct Hsz as (train & test & Hsplit & Hntr & Hnte).
  rewrite <- Hcfg in Hsplit.
  destruct (SklearnFacts.test_share_bounds n r Hr) as (Hb & [Hlo Hhi] & _).
  fold exact in Hb.
  assert (Hte : Z.of_nat (Frame.nrows test)
                = Sklearn.test_share n (Number.PyFloat r)).
  { rewrite Hnte. fold n. lia. }
  exists train, test.
  split; [exact Hsplit |].
  split. { rewrite Hntr, Hnte. fold n. lia. }
  split; [exact Hte |].
  split. { rewrite Hte. exact Hb. }
  intros Hdir Htrain Htest.
  exact (split_writes cfg df train test w Hsplit Hdir Htrain Htest).
Qed.

Lemma split_row_counts_witness :
  exists train_set test_set w',
    Frame.nrows train_set = 75%nat /\ Frame.nrows test_set = 25%nat
    /\ split_data_as_train_test Sample.cfg (Sample.labelled 100) Sample.world
       = (inr tt, w')
    /\ fs w' = <[testing_file_path Sample.cfg := test_set]>
                 (<[training_file_path Sample.cfg := train_set]>
                    (fs Sample.world)).
Proof.
  destruct (split_row_counts Sample.cfg (Sample.labelled 100) Sample.world
              {| Number.mant := 1; Number.expo := -2 |})
    as (tr & te & _ & Hsum & Hshare & _ & Hrun).
  - reflexivity.
  - split; reflexivity.
  - reflexivity.
  - vm_compute. reflexivity.
  - destruct Hrun as (w' & Hrun & Hfs).
    + split; [intros H; vm_compute in H; discriminate H | reflexivity].
    + split; [intros H; vm_compute in H; discriminate H | reflexivity].
    + split; [intros H; vm_compute in H; discriminate H | reflexivity].
    + exists tr, te, w'.
      assert (Hte : te.(Frame.nrows) = 25%nat).
      { change (Sklearn.test_share _ _) with 25%Z in Hshare. lia. }
      change (Frame.nrows (Sample.labelled 100)) with 100%nat in Hsum.
      repeat split; try assumption; lia.
Defined.

(** C5, as stated, fails on a data set of one row: with the ratio 0.25 the
    test share is the whole set, the library refuses the empty train set and
    the split raises. *)
Lemma split_single_row_raises :
  Frame.nrows (Sample.labelled 1) = 1%nat
  /\ Number.in_unit_interval (train_test_split_ratio Sample.cfg)
  /\ (forall draws,
        exists msg,
          Sklearn.train_test_split draws (Sample.labelled 1)
                                   (train_test_split_ratio Sample.cfg)
          = inl (ValueError msg))
  /\ exists msg,
       fst (split_data_as_train_test Sample.cfg (Sample.labelled 1) Sample.world)
       = inl (MyException (ValueError msg)).
Proof.
  split; [reflexivity |]. split; [split; reflexivity |].
  split; [intros draws; eexists; reflexivity | eexists; vm_compute; reflexivity].
Qed.

Lemma split_sizes_agree (df : Frame.DataFrame) (r : Number.Number)
    (draws1 draws2 : nat -> nat) :
  Sklearn.row_counts (Sklearn.train_test_split draws1 df r)
  = Sklearn.row_counts (Sklearn.train_test_split draws2 df r).
Proof.
  pose proof (SklearnFacts.train_test_split_sizes draws1 df r) as H1.
  pose proof (SklearnFacts.train_test_split_sizes draws2 df r) as H2.
  destruct (Sklearn.validate_shuffle_split (Frame.nrows df) r) as [e | [ntr nte]].
  - now rewrite H1, H2.
  - destruct H1 as (tr1 & te1 & -> & Htr1 & Hte1).
    destruct H2 as (tr2 & te2 & -> & Htr2 & Hte2).
    cbn. now rewrite Htr1, Hte1, Htr2, Hte2.
Qed.

(** C9. Two runs of the ingestion split on the same data set with the same
    ratio, in an unchanged environment (the same paths can be written), end
    alike, and when they return, the train files of both runs have the same
    number of rows and so have the test files. This holds for every state
    of the random generator in either run, pinned to one seed or not. *)
Theorem split_row_counts_reproducible (cfg : DataIngestionConfig)
    (df : Frame.DataFrame) (w1 w2 : World) :
  (forall p, io_fault w1 p = io_fault w2 p) ->
  let run1 := split_data_as_train_test cfg df w1 in
  let run2 := split_data_as_train_test cfg df w2 in
  Sklearn.row_counts (Sklearn.train_test_split (rng w1) df (train_test_split_ratio cfg))
  = Sklearn.row_counts (Sklearn.train_test_split (rng w2) df (train_test_split_ratio cfg))
  /\ fst run1 = fst run2
  /\ (fst run1 = inr tt ->
      written_rows (snd run1) (training_file_path cfg)
      = written_rows (snd run2) (training_file_path cfg)
      /\ written_rows (snd run1) (testing_file_path cfg)
         = written_rows (snd run2) (testing_file_path cfg)).
Proof.
  intros Hio run1 run2.
  pose proof (split_sizes_agree df (train_test_split_ratio cfg) (rng w1) (rng w2))
    as Hsz.
  split; [exact Hsz |].
  subst run1 run2. unfold split_data_as_train_test.
  unfold bind, try_except, raise, logging_info, modify, train_test_split,
    os_makedirs, to_csv, written_rows.
  cbn [rng set_log set_rng set_fs io_fault fs fst snd].
  destruct (Sklearn.train_test_split (rng w1) df _) as [e1 | [tr1 te1]];
    destruct (Sklearn.train_test_split (rng w2) df _) as [e2 | [tr2 te2]];
    cbn in Hsz; try discriminate Hsz.
  - injection Hsz as ->. cbn. split; [reflexivity | discriminate].
  - injection Hsz as Htr Hte.
    cbn [rng set_log set_rng set_fs io_fault fs fst snd].
    destruct (OsPath.dirname (training_file_path cfg)) as [| c d] eqn:Hd;
      [cbn; split; [reflexivity | discriminate] |].
    rewrite <- (Hio (String c d)).
    destruct (io_fault w1 (String c d));
      [cbn; split; [reflexivity | discriminate] |].
    cbn [rng set_log set_rng set_fs io_fault fs fst snd].
    destruct (training_file_path cfg) as [| c1 p1] eqn:Hp1;
      [cbn; split; [reflexivity | discriminate] |].
    rewrite <- (Hio (String c1 p1)).
    destruct (io_fault w1 (String c1 p1));
      [cbn; split; [reflexivity | discriminate] |].
    cbn [rng set_log set_rng set_fs io_fault fs fst snd].
    destruct (testing_file_path cfg) as [| c2 p2] eqn:Hp2;
      [cbn; split; [reflexivity | discriminate] |].
    rewrite <- (Hio (String c2 p2)).
    destruct (io_fault w1 (String c2 p2));
      [cbn; split; [reflexivity | discriminate] |].
    cbn [rng set_log set_rng set_fs io_fault fs fst snd].
    split; [reflexivity |]. intros _.
    rewrite !lookup_insert.
    split; repeat case_decide; try congruence; simpl; f_equal; assumption.
Qed.

Lemma split_row_counts_reproducible_witness :
  let cfg := Sample.cfg in
  let df := Sample.labelled 100 in
  let run1 := split_data_as_train_test cfg df Sample.world in
  let run2 := split_data_as_train_test cfg df (Sample.reseeded Sample.world) in
  fst run1 = inr tt /\ fst run2 = inr tt
  /\ written_rows (snd run1) (training_file_path cfg)
     = written_rows (snd run2) (training_file_path cfg)
  /\ written_rows (snd run1) (testing_file_path cfg)
     = written_rows (snd run2) (testing_file_path cfg).
Proof.
  intros cfg df run1 run2.
  destruct (split_row_counts_reproducible cfg df Sample.world
              (Sample.reseeded Sample.world)) as (_ & Hres & Hrows).
  - intros p. reflexivity.
  - assert (H1 : fst run1 = inr tt) by (vm_compute; reflexivity).
    split; [exact H1 |]. split; [| exact (Hrows H1)].
    fold run1 run2 in Hres. rewrite <- Hres. exact H1.
Defined.

End IngestionClaims.

(** ** The orchestrator *)

Module PipelineFacts.

Import Config Artifact Pipeline.

(** Run the orchestrator up to the next component call and split on how
    that call ends. *)
Ltac split_call call :=
  let e := fresh "e" in
  let a := fresh "a" in
  let w := fresh "w" in
  let Hcall := fresh "Hcall" in
  destruct call as [[e | a] w] eqn:Hcall.

Ltac next_call C H :=
  cbn -[Ingestion.initiate_data_ingestion] in H;
  match type of H with
  | context [Ingestion.initiate_data_ingestion ?c ?w] =>
      split_call (Ingestion.initiate_data_ingestion c w)
  | context [initiate_data_validation C ?c ?a ?w] =>
      split_call (initiate_data_validation C c a w)
  | context [initiate_data_transformation C ?c ?a ?b ?w] =>
      split_call (initiate_data_transformation C c a b w)
  | context [initiate_model_trainer C ?c ?a ?w] =>
      split_call (initiate_model_trainer C c a w)
  | context [initiate_model_evaluation C ?c ?a ?b ?w] =>
      split_call (initiate_model_evaluation C c a b w)
  | context [initiate_model_pusher C ?c ?a ?w] =>
      split_call (initiate_model_pusher C c a w)
  | context [if negb (is_model_accepted ?a) then _ else _] =>
      let Hacc := fresh "Hacc" in
      destruct (is_model_accepted a) eqn:Hacc
  end.

(** Follow a run to its end, in every way it can go. *)
Ltac all_runs C H :=
  unfold run_pipeline, start_data_ingestion, start_data_validation,
    start_data_transformation, start_model_trainer, start_model_evaluation,
    start_model_pusher, try_except, bind, info, lift, invoke, raise, ret,
    logging_info, logging_error, modify in H;
  repeat next_call C H;
  cbn -[Ingestion.initiate_data_ingestion] in H;
  injection H as <- <-;
  cbn [trace world log set_log].

(** An event of a trace that is written out is one of its entries. *)
Ltac pick_event H :=
  cbn [In app trace] in H;
  repeat match type of H with
    | _ \/ _ => destruct H as [H | H]
    | False => contradiction H
    end.




Ltac split_order :=
  first [ exists [], (drop 1 stage_order); split; reflexivity
        | exists (take 1 stage_order), (drop 2 stage_order); split; reflexivity
        | exists (take 2 stage_order), (drop 3 stage_order); split; reflexivity
        | exists (take 3 stage_order), (drop 4 stage_order); split; reflexivity
        | exists (take 4 stage_order), (drop 5 stage_order); split; reflexivity
        | exists (take 5 stage_order), (drop 6 stage_order); split; reflexivity ].

End PipelineFacts.

Section PipelineClaims.

Import Config Artifact Pipeline PipelineFacts.

Variable C : Components.
Variable self : TrainPipeline.

(** C2. In every run, when a component raises an exception [e], the call
    [run_pipeline] ends by raising [e] wrapped in [MyException] (once by the
    stage's [start_...] method, once by [run_pipeline]), the last record of
    the log is the error record of that exception, and the components
    invoked are exactly the ones up to the failing one, each once and in
    order: nothing is retried and nothing runs after the failure. *)
Theorem failure_is_wrapped_logged_and_final (w : World) (res : Result unit)
    (r' : Run) :
  run_pipeline C self (start w) = (res, r') ->
  forall s e, raised_in s e (trace r') ->
    res = inl (MyException (MyException e))
    /\ root_cause (MyException (MyException e)) = root_cause e
    /\ (exists l : list LogRecord,
          log (world r')
          = l ++ [ERROR "Error in pipeline execution: " (MyException e)])
    /\ (exists before after,
          stage_order = before ++ s :: after
          /\ stages_of (trace r') = before ++ [s]).
Proof.
  intros Hrun s e [arg Hin].
  all_runs C Hrun; pick_event Hin; try discriminate Hin;
    injection Hin as <- <- <-;
    (split; [reflexivity |]); (split; [reflexivity |]);
    (split; [eexists; reflexivity | split_order]).
Qed.



End PipelineClaims.

Section PipelineRuns.

Import Config Artifact Pipeline.

Lemma failure_is_wrapped_logged_and_final_witness :
  let failure := PlainException "No model found with score above the base score" in
  let run := run_pipeline (Sample.components (73 # 100) true Sample.deployed_070)
                          Sample.pipeline (start Sample.world) in
  fst run = inl (MyException (MyException failure))
  /\ stages_of (trace (snd run))
     = [DataIngestion; DataValidation; DataTransformation; ModelTrainer].
Proof.
  intros failure run.
  assert (Hraised : raised_in ModelTrainer failure (trace (snd run))).
  { eexists. vm_compute. do 3 right. left. reflexivity. }
  assert (Hstages : stages_of (trace (snd run))
                    = [DataIngestion; DataValidation; DataTransformation;
                       ModelTrainer]) by (vm_compute; reflexivity).
  split; [| exact Hstages].
  apply (failure_is_wrapped_logged_and_final
           (Sample.components (73 # 100) true Sample.deployed_070)
           Sample.pipeline Sample.world (fst run) (snd run)
           (surjective_pairing run) ModelTrainer failure Hraised).
Defined.



End PipelineRuns.

(** ** What reaches the feature store *)

Section FeatureStoreClaims.

Import Frame.

(** What the cleaning does achieve: no column is named ["id"] afterwards. *)
Lemma clean_drops_id (df : DataFrame) : ~ In "id" (columns (Mongo.clean df)).
Proof.
  unfold Mongo.clean, columns, replace, drop_column. cbn [data].
  rewrite map_map. cbn [fst].
  destruct (decide ("id" ∈ map fst (data df))) as [Hin | Hnin]; cbn [data].
  - rewrite in_map_iff. intros ([k v] & Hk & Hf). cbn in Hk. subst k.
    apply list_elem_of_In, list_elem_of_filter in Hf as [Hne _]. now apply Hne.
  - intros H. apply Hnin. now apply list_elem_of_In.
Qed.

(** And no cell holds the string ["na"] afterwards. *)
Lemma clean_replaces_na (df : DataFrame) : ~ In (VStr "na") (cells (Mongo.clean df)).
Proof.
  unfold Mongo.clean, cells, replace. cbn [data]. rewrite map_map.
  intros H. apply in_concat in H as (col & Hcol & Hin).
  apply in_map_iff in Hcol as ([k vs] & <- & _). cbn [snd] in Hin.
  apply in_map_iff in Hin as ([] & Hc & _); cbn in Hc; try discriminate Hc.
  destruct (decide (s = "na")); [discriminate Hc | congruence].
Qed.

(** C4, on the code. A collection as MongoDB returns it, every document
    carrying the key [_id]: the snapshot written to the feature store still
    has the column [_id]. Only a column named [id] is dropped; the ["na"]
    cells are replaced. *)
Theorem feature_store_keeps_mongo_id :
  exists df w',
    Ingestion.export_data_into_feature_store Sample.cfg Sample.world = (inr df, w')
    /\ fs w' !! Config.feature_store_file_path Sample.cfg = Some df
    /\ columns df = ["_id"; "Gender"; "Age"; "Vehicle_Damage"; "Response"]
    /\ In "_id" (columns df)
    /\ ~ In (VStr "na") (cells df).
Proof.
  eexists _, _. split; [vm_compute; reflexivity |].
  split; [vm_compute; reflexivity |].
  split; [reflexivity |].
  split; [left; reflexivity |].
  vm_compute. intuition discriminate.
Qed.

End FeatureStoreClaims.

(** ** Model evaluation *)

Section EvaluationClaims.

Import Config Artifact Evaluation.

Variable Model : Type.
Variable f1_on : Model -> string -> Q.

Lemma Qgt_bool_iff (x y : Q) : Qgt_bool x y = true <-> (y < x)%Q.
Proof.
  unfold Qgt_bool. rewrite negb_true_iff. split.
  - intros H. apply Qnot_le_lt. intros Hle. apply Qle_bool_iff in Hle. congruence.
  - intros H. destruct (Qle_bool x y) eqn:E; [| reflexivity].
    apply Qle_bool_iff in E. exfalso. apply (Qlt_not_le _ _ H E).
Qed.

(** C6. With a deployed model of F1 score [old_f1] in the remote store, the
    evaluation returns, and it accepts the new model exactly when
    [new_f1 - old_f1] is strictly greater than [changed_threshold_score]. In
    particular, for every [eps > 0], a new score of
    [old_f1 + threshold - eps] is rejected and one of
    [old_f1 + threshold + eps] is accepted. *)
Theorem accepted_iff_gain_exceeds_threshold (cfg : ModelEvaluationConfig)
    (store : gmap string Model) (deployed : Model)
    (dia : DataIngestionArtifact) (mta : ModelTrainerArtifact) :
  store !! eval_s3_model_key_path cfg = Some deployed ->
  let new_f1 := f1_score (metric_artifact mta) in
  let old_f1 := f1_on deployed (test_file_path dia) in
  let threshold := changed_threshold_score cfg in
  exists art,
    initiate_model_evaluation Model f1_on cfg store dia mta = inr art
    /\ (is_model_accepted art = true <-> (threshold < new_f1 - old_f1)%Q)
    /\ (changed_accuracy art == new_f1 - old_f1)%Q
    /\ (forall eps, (0 < eps)%Q -> (new_f1 == old_f1 + threshold - eps)%Q ->
          is_model_accepted art = false)
    /\ (forall eps, (0 < eps)%Q -> (new_f1 == old_f1 + threshold + eps)%Q ->
          is_model_accepted art = true).
Proof.
  intros Hstore new_f1 old_f1 threshold.
  unfold initiate_model_evaluation. rewrite Hstore.
  eexists. split; [reflexivity |]. cbn [is_model_accepted changed_accuracy].
  fold new_f1 old_f1 threshold.
  split; [apply Qgt_bool_iff |]. split; [reflexivity |]. split.
  - intros eps Heps Hnew.
    destruct (Qgt_bool (new_f1 - old_f1) threshold) eqn:E; [| reflexivity].
    apply Qgt_bool_iff in E. rewrite Hnew in E. lra.
  - intros eps Heps Hnew. apply Qgt_bool_iff. rewrite Hnew. lra.
Qed.

(** C7. With no deployed model in the remote store, the evaluation does not
    fail: it returns an artifact with [is_model_accepted = True] and a score
    difference of 0. *)
Theorem no_deployed_model_means_accepted (cfg : ModelEvaluationConfig)
    (store : gmap string Model)
    (dia : DataIngestionArtifact) (mta : ModelTrainerArtifact) :
  store !! eval_s3_model_key_path cfg = None ->
  exists art,
    initiate_model_evaluation Model f1_on cfg store dia mta = inr art
    /\ is_model_accepted art = true
    /\ changed_accuracy art = 0%Q.
Proof.
  intros Hstore. unfold initiate_model_evaluation. rewrite Hstore.
  eexists. repeat split.
Qed.

End EvaluationClaims.

Section EvaluationRuns.

Import Config Artifact Evaluation.

Lemma accepted_iff_gain_exceeds_threshold_witness :
  (exists art,
     initiate_model_evaluation Q (fun m _ => m) default_ModelEvaluationConfig
       Sample.deployed_070 Sample.ingested (Sample.trained Sample.just_below)
     = inr art
     /\ is_model_accepted art = false)
  /\ (exists art,
        initiate_model_evaluation Q (fun m _ => m) default_ModelEvaluationConfig
          Sample.deployed_070 Sample.ingested (Sample.trained Sample.just_above)
        = inr art
        /\ is_model_accepted art = true).
Proof.
  split.
  - destruct (accepted_iff_gain_exceeds_threshold Q (fun m _ => m)
                default_ModelEvaluationConfig Sample.deployed_070 (70 # 100)
                Sample.ingested (Sample.trained Sample.just_below) eq_refl)
      as (art & Hrun & _ & _ & Hbelow & _).
    exists art. split; [exact Hrun |]. apply (Hbelow (1 # 1000)); reflexivity.
  - destruct (accepted_iff_gain_exceeds_threshold Q (fun m _ => m)
                default_ModelEvaluationConfig Sample.deployed_070 (70 # 100)
                Sample.ingested (Sample.trained Sample.just_above) eq_refl)
      as (art & Hrun & _ & _ & _ & Habove).
    exists art. split; [exact Hrun |]. apply (Habove (1 # 1000)); reflexivity.
Defined.

Lemma no_deployed_model_means_accepted_witness :
  exists art,
    initiate_model_evaluation Q (fun m _ => m) default_ModelEvaluationConfig
      ∅ Sample.ingested (Sample.trained (61 # 100)) = inr art
    /\ is_model_accepted art = true
    /\ changed_accuracy art = 0%Q.
Proof.
  apply no_deployed_model_means_accepted. reflexivity.
Defined.

End EvaluationRuns.

(** ** The run directory *)

Section ConfigClaims.

Import Config.

Lemma digit_not_sep (n : nat) : Ascii.eqb (digit n) "/" = false.
Proof.
  unfold digit.
  assert (H : (n mod 10 < 10)%nat) by (apply Nat.mod_upper_bound; lia).
  generalize dependent (n mod 10). intros k Hk.
  do 10 (destruct k as [| k]; [reflexivity |]). lia.
Qed.

Lemma append_assoc (a b c : string) : (a +:+ b) +:+ c = a +:+ b +:+ c.
Proof. induction a as [| x a IH]; cbv [String.append]; [reflexivity |].
  fold String.append. now rewrite IH. Qed.

Lemma ends_with_sep_append (a b : string) :
  b <> EmptyString -> OsPath.ends_with_sep (a +:+ b) = OsPath.ends_with_sep b.
Proof.
  intros Hb. induction a as [| x a IH]; [reflexivity |].
  change (String x a +:+ b) with (String x (a +:+ b)).
  cbn [OsPath.ends_with_sep]. rewrite IH.
  destruct (a +:+ b) eqn:E; [| reflexivity].
  destruct a; [cbv [String.append] in E; congruence | discriminate E].
Qed.

(** A directory a component can be joined to with one separator. *)
Lemma join_relative (a b : string) :
  a <> EmptyString -> OsPath.ends_with_sep a = false ->
  OsPath.starts_with_sep b = false ->
  OsPath.join a b = a +:+ "/" +:+ b.
Proof.
  intros Ha Hend Hb. unfold OsPath.join. rewrite Hb, Hend.
  destruct a; [contradiction | reflexivity].
Qed.

Lemma timestamp_relative (now : datetime) :
  OsPath.starts_with_sep (TIMESTAMP now) = false.
Proof. cbv [TIMESTAMP strftime pad2 String.append OsPath.starts_with_sep].
  apply digit_not_sep. Qed.

Lemma root_is_timestamped (now : datetime) :
  artifact_dir (training_pipeline_config now) = "artifact/" +:+ TIMESTAMP now.
Proof.
  cbn [artifact_dir training_pipeline_config]. unfold OsPath.join.
  now rewrite timestamp_relative.
Qed.

Lemma root_is_open (now : datetime) :
  artifact_dir (training_pipeline_config now) <> EmptyString
  /\ OsPath.ends_with_sep (artifact_dir (training_pipeline_config now)) = false.
Proof.
  rewrite root_is_timestamped. split; [discriminate |].
  rewrite ends_with_sep_append.
  - cbv [TIMESTAMP strftime pad2 pad4 String.append OsPath.ends_with_sep].
    apply digit_not_sep.
  - cbv [TIMESTAMP strftime pad2 String.append]. discriminate.
Qed.

(** A fixed name appended below a directory: the result again takes a
    further component. *)
Lemma join_name (a b : string) :
  a <> EmptyString -> OsPath.ends_with_sep a = false ->
  OsPath.starts_with_sep b = false -> b <> EmptyString ->
  OsPath.ends_with_sep b = false ->
  OsPath.join a b = a +:+ "/" +:+ b
  /\ OsPath.join a b <> EmptyString
  /\ OsPath.ends_with_sep (OsPath.join a b) = false.
Proof.
  intros Ha Hend Hb Hne Hbe. rewrite (join_relative a b Ha Hend Hb).
  split; [reflexivity |]. split.
  - destruct a; [contradiction | discriminate].
  - rewrite ends_with_sep_append; [| discriminate].
    rewrite (ends_with_sep_append "/" b Hne). exact Hbe.
Qed.

(** A path made of a directory below the root and further names lies below
    the root. *)
Lemma under_join (root p b : string) :
  under root p -> p <> EmptyString -> OsPath.ends_with_sep p = false ->
  OsPath.starts_with_sep b = false -> b <> EmptyString ->
  OsPath.ends_with_sep b = false ->
  under root (OsPath.join p b)
  /\ OsPath.join p b <> EmptyString
  /\ OsPath.ends_with_sep (OsPath.join p b) = false.
Proof.
  intros [rest ->] Hp Hend Hb Hne Hbe.
  destruct (join_name _ b Hp Hend Hb Hne Hbe) as (Heq & H1 & H2).
  split; [| split; assumption].
  rewrite Heq. exists (rest +:+ "/" +:+ b). now rewrite !append_assoc.
Qed.

(** C10. The time stamp is taken once, when the module is loaded. In a
    process loaded at [now], the root of the run is
    [artifact/<TIMESTAMP>], the directory of each of the four stage
    configurations built without arguments is that root followed by the
    name of the stage, and every output path of the four configurations
    lies below that one root. *)
Theorem stage_outputs_share_run_root (now : datetime) :
  let root := artifact_dir (training_pipeline_config now) in
  root = "artifact/" +:+ TIMESTAMP now
  /\ timestamp (training_pipeline_config now) = TIMESTAMP now
  /\ data_ingestion_dir (default_DataIngestionConfig now)
     = root +:+ "/data_ingestion"
  /\ data_validation_dir (default_DataValidationConfig now)
     = root +:+ "/data_validation"
  /\ data_transformation_dir (default_DataTransformationConfig now)
     = root +:+ "/data_transformation"
  /\ model_trainer_dir (default_ModelTrainerConfig now)
     = root +:+ "/model_trainer"
  /\ Forall (under root)
       (ingestion_output_paths now ++ validation_output_paths now
        ++ transformation_output_paths now ++ trainer_output_paths now).
Proof.
  destruct (root_is_open now) as [Hne Hend].
  set (root := artifact_dir (training_pipeline_config now)) in *.
  assert (Hdir : forall name,
             OsPath.starts_with_sep name = false -> name <> EmptyString ->
             OsPath.ends_with_sep name = false ->
             OsPath.join root name = root +:+ "/" +:+ name
             /\ under root (OsPath.join root name)
             /\ OsPath.join root name <> EmptyString
             /\ OsPath.ends_with_sep (OsPath.join root name) = false).
  { intros name H1 H2 H3.
    destruct (join_name root name Hne Hend H1 H2 H3) as (Heq & H4 & H5).
    repeat split; try assumption. rewrite Heq. now exists name. }
  assert (Hsub : forall p a b,
             under root p /\ p <> EmptyString /\ OsPath.ends_with_sep p = false ->
             OsPath.starts_with_sep a = false -> a <> EmptyString ->
             OsPath.ends_with_sep a = false ->
             OsPath.starts_with_sep b = false -> b <> EmptyString ->
             OsPath.ends_with_sep b = false ->
             under root (OsPath.join3 p a b)).
  { intros p a b (Hu & Hp & He) Ha1 Ha2 Ha3 Hb1 Hb2 Hb3.
    destruct (under_join root p a Hu Hp He Ha1 Ha2 Ha3) as (Hu' & Hp' & He').
    now destruct (under_join root _ b Hu' Hp' He' Hb1 Hb2 Hb3). }
  destruct (Hdir DATA_INGESTION_DIR_NAME) as (Ei & Hi);
    [reflexivity | discriminate | reflexivity |].
  destruct (Hdir DATA_VALIDATION_DIR_NAME) as (Ev & Hv);
    [reflexivity | discriminate | reflexivity |].
  destruct (Hdir DATA_TRANSFORMATION_DIR_NAME) as (Et & Ht);
    [reflexivity | discriminate | reflexivity |].
  destruct (Hdir MODEL_TRAINER_DIR_NAME) as (Em & Hm);
    [reflexivity | discriminate | reflexivity |].
  cbn zeta. split; [apply root_is_timestamped |]. split; [reflexivity |].
  split; [exact Ei |]. split; [exact Ev |]. split; [exact Et |].
  split; [exact Em |].
  unfold ingestion_output_paths, validation_output_paths,
    transformation_output_paths, trainer_output_paths.
  cbn [app data_ingestion_dir feature_store_file_path training_file_path
       testing_file_path data_validation_dir validation_report_file_path
       data_transformation_dir transformed_train_file_path
       transformed_test_file_path transformed_object_file_path
       model_trainer_dir trained_model_file_path
       default_DataIngestionConfig default_DataValidationConfig
       default_DataTransformationConfig default_ModelTrainerConfig].
  fold root.
  assert (Hval : under root (OsPath.join (OsPath.join root DATA_VALIDATION_DIR_NAME)
                                         DATA_VALIDATION_REPORT_FILE_NAME)).
  { destruct Hv as (Hv1 & Hv2 & Hv3).
    apply under_join; first [assumption | reflexivity | discriminate]. }
  repeat (apply Forall_cons; split;
          [first [ exact (proj1 Hi) | exact (proj1 Hv) | exact (proj1 Ht)
                 | exact (proj1 Hm) | exact Hval
                 | apply Hsub;
                   first [ assumption | reflexivity
                         | intros Hempty; vm_compute in Hempty;
                           discriminate Hempty ] ] |]).
  constructor.
Qed.

End ConfigClaims.

(** ** The connection to MongoDB *)

Module MongoFacts.

Import Mongo.

(** How a construction that returned came about. *)
Lemma client_init_returned (db : string) (w w' : World) (c : MongoDBClient) :
  MongoDBClient_init db w = (inr c, w') ->
  database_name c = db
  /\ get_database db = inr tt
  /\ shared_client w' = Some (client c)
  /\ (shared_client w = Some (client c)
      \/ (shared_client w = None
          /\ environ w !! Config.MONGODB_URL_KEY = Some (client c)
          /\ mongo_connect w (client c) = None)).
Proof.
  unfold MongoDBClient_init, try_except, bind, gets, raise, ret, modify,
    logging_info, of_result.
  destruct (shared_client w) as [url |] eqn:Hshared.
  - destruct (get_database db) as [e | []]; [discriminate |].
    intros [= <- <-]. cbn. rewrite Hshared. auto.
  - destruct (environ w !! Config.MONGODB_URL_KEY) as [url |] eqn:Henv;
      [| discriminate].
    destruct (mongo_connect w url) eqn:Hconn; [discriminate |].
    destruct (get_database db) as [e | []]; [discriminate |].
    intros [= <- <-]. cbn. auto 10.
Qed.

(** With the shared client in place a construction needs nothing but a
    name the driver takes. *)
Lemma client_init_shared (db url : string) (w : World) :
  shared_client w = Some url ->
  MongoDBClient_init db w
  = match get_database db with
    | inr _ =>
        (inr {| client := url; database_name := db |},
         set_log (log w ++ [INFO "MongoDB connection successful."]) w)
    | inl e => (inl (MyException e), w)
    end.
Proof.
  intros H.
  unfold MongoDBClient_init, try_except, bind, gets, raise, ret, modify,
    logging_info, of_result.
  rewrite H. now destruct (get_database db) as [e | []].
Qed.

End MongoFacts.

Section MongoProperties.

Import Mongo MongoFacts.

(** X1. The connection is made once per process. After one
    [MongoDBClient] has been constructed, every later construction, in any
    later state of the process that still holds the shared client, uses the
    same connection: it does not read the environment and does not connect
    again, so it does not depend on the variable or on the server. For a
    database name the driver takes it returns a client on that connection
    and logs one record; for a name the driver refuses (the empty name, a
    name with a space, a dot, a dollar, a slash, a backslash, a null
    character or a double quote) it raises the driver's [InvalidName]
    wrapped, and logs nothing. Either way the shared client stays. *)
Theorem connection_is_made_once (db1 db2 : string) (w w1 w2 : World)
    (c1 : MongoDBClient) :
  MongoDBClient_init db1 w = (inr c1, w1) ->
  shared_client w2 = shared_client w1 ->
  MongoDBClient_init db2 w2
  = match get_database db2 with
    | inr _ =>
        (inr {| client := client c1; database_name := db2 |},
         set_log (log w2 ++ [INFO "MongoDB connection successful."]) w2)
    | inl e => (inl (MyException e), w2)
    end
  /\ shared_client (snd (MongoDBClient_init db2 w2)) = shared_client w1.
Proof.
  intros Hfirst Hsame.
  destruct (client_init_returned _ _ _ _ Hfirst) as (_ & _ & Hshared & _).
  rewrite Hshared in Hsame.
  rewrite (client_init_shared db2 (client c1) w2 Hsame).
  split; [reflexivity |].
  destruct (get_database db2) as [e | u]; cbn; congruence.
Qed.

(** A name the driver refuses fails the construction after the connection
    has been made: the shared client is stored all the same. *)
Lemma refused_name_keeps_the_connection (db url : string) (e : Exn) (w : World) :
  shared_client w = None ->
  environ w !! Config.MONGODB_URL_KEY = Some url ->
  mongo_connect w url = None ->
  get_database db = inl e ->
  MongoDBClient_init db w
  = (inl (MyException e), set_shared_client (Some url) w).
Proof.
  intros Hshared Henv Hconn Hname.
  unfold MongoDBClient_init, try_except, bind, gets, raise, ret, modify,
    of_result.
  now rewrite Hshared, Henv, Hconn, Hname.
Qed.

(** Without a shared client and without the variable [MONGODB_URL] the
    construction raises the wrapped [Exception] that names the variable, and
    leaves the process as it was: no client is stored and nothing is
    logged. *)
Lemma client_needs_the_url (db : string) (w : World) :
  shared_client w = None ->
  environ w !! Config.MONGODB_URL_KEY = None ->
  MongoDBClient_init db w
  = (inl (MyException
            (PlainException "Environment variable 'MONGODB_URL' is not set.")),
     w).
Proof.
  intros Hshared Henv.
  unfold MongoDBClient_init, try_except, bind, gets, raise.
  now rewrite Hshared, Henv.
Qed.

(** A failure to connect is passed on wrapped once, and no client is
    stored: the next construction tries again. *)
Lemma failed_connection_is_not_kept (db url : string) (e : Exn) (w : World) :
  shared_client w = None ->
  environ w !! Config.MONGODB_URL_KEY = Some url ->
  mongo_connect w url = Some e ->
  MongoDBClient_init db w = (inl (MyException e), w)
  /\ shared_client (snd (MongoDBClient_init db w)) = None.
Proof.
  intros Hshared Henv Hconn.
  assert (Hrun : MongoDBClient_init db w = (inl (MyException e), w)).
  { unfold MongoDBClient_init, try_except, bind, gets, raise.
    now rewrite Hshared, Henv, Hconn. }
  rewrite Hrun. split; [reflexivity | exact Hshared].
Qed.

End MongoProperties.

(** ** What a run may change *)

Module Footprint.

Import Config.

Section Keeps.

Variable R : World -> World -> Prop.
Hypothesis R_refl : forall w, R w w.
Hypothesis R_trans : forall w1 w2 w3, R w1 w2 -> R w2 w3 -> R w1 w3.

Lemma keeps_ret {A} (a : A) : keeps R (ret a).
Proof. intros w res w' [= _ <-]. apply R_refl. Qed.

Lemma keeps_raise {A} (e : Exn) : keeps R (@raise World A e).
Proof. intros w res w' [= _ <-]. apply R_refl. Qed.

Lemma keeps_of_result {A} (r : Result A) : keeps R (of_result r).
Proof. intros w res w' [= _ <-]. apply R_refl. Qed.

Lemma keeps_gets {A} (f : World -> A) : keeps R (gets f).
Proof. intros w res w' [= _ <-]. apply R_refl. Qed.

Lemma keeps_bind {A B} (m : M World A) (k : A -> M World B) :
  keeps R m -> (forall a, keeps R (k a)) -> keeps R (bind m k).
Proof.
  intros Hm Hk w res w'. unfold bind.
  destruct (m w) as [[e | a] w1] eqn:E.
  - intros [= _ <-]. apply (Hm _ _ _ E).
  - intros Hrun. apply (R_trans _ w1); [apply (Hm _ _ _ E) |].
    apply (Hk a _ _ _ Hrun).
Qed.

Lemma keeps_try_except {A} (m : M World A) (h : Exn -> M World A) :
  keeps R m -> (forall e, keeps R (h e)) -> keeps R (try_except m h).
Proof.
  intros Hm Hh w res w'. unfold try_except.
  destruct (m w) as [[e | a] w1] eqn:E.
  - intros Hrun. apply (R_trans _ w1); [apply (Hm _ _ _ E) |].
    apply (Hh e _ _ _ Hrun).
  - intros [= _ <-]. apply (Hm _ _ _ E).
Qed.

Lemma keeps_wrap {A} (m : M World A) :
  keeps R m -> keeps R (try_except m (fun e => raise (MyException e))).
Proof. intros Hm. apply keeps_try_except; [exact Hm |]. intros e. apply keeps_raise. Qed.

End Keeps.

Lemma footprint_refl (cfg : DataIngestionConfig) (w : World) :
  ingestion_footprint cfg w w.
Proof.
  split; [intros p _; reflexivity |]. split; [exists []; now rewrite app_nil_r |].
  repeat split.
Qed.

Lemma footprint_trans (cfg : DataIngestionConfig) (w1 w2 w3 : World) :
  ingestion_footprint cfg w1 w2 -> ingestion_footprint cfg w2 w3 ->
  ingestion_footprint cfg w1 w3.
Proof.
  intros (F1 & [l1 L1] & E1 & C1 & M1 & I1) (F2 & [l2 L2] & E2 & C2 & M2 & I2).
  split; [intros p Hp; now rewrite (F2 p Hp), (F1 p Hp) |].
  split; [exists (l1 ++ l2); now rewrite L2, L1, app_assoc |].
  repeat split; congruence.
Qed.

Lemma footprint_logging (cfg : DataIngestionConfig) (msg : string) :
  keeps (ingestion_footprint cfg) (logging_info msg).
Proof.
  intros w res w' [= _ <-].
  split; [intros p _; reflexivity |]. split; [now exists [INFO msg] |].
  repeat split.
Qed.

Lemma footprint_makedirs (cfg : DataIngestionConfig) (d : string) :
  keeps (ingestion_footprint cfg) (os_makedirs d).
Proof.
  intros w res w'. unfold os_makedirs.
  destruct d; [| destruct (io_fault w _)]; intros [= _ <-];
    apply footprint_refl.
Qed.

Lemma footprint_to_csv (cfg : DataIngestionConfig) (df : Frame.DataFrame)
    (p : string) :
  In p [feature_store_file_path cfg; training_file_path cfg;
        testing_file_path cfg] ->
  keeps (ingestion_footprint cfg) (to_csv df p).
Proof.
  intros Hp w res w'. unfold to_csv.
  destruct p as [| c rest]; [intros [= _ <-]; apply footprint_refl |].
  destruct (io_fault w _); intros [= _ <-]; [apply footprint_refl |].
  split.
  - intros q Hq. cbn [fs set_fs]. apply lookup_insert_ne. congruence.
  - split; [exists []; cbn; now rewrite app_nil_r | repeat split].
Qed.

Lemma footprint_split (cfg : DataIngestionConfig) (df : Frame.DataFrame)
    (r : Number.Number) :
  keeps (ingestion_footprint cfg) (train_test_split df r).
Proof.
  intros w res w'. unfold train_test_split.
  destruct (Sklearn.train_test_split _ _ _); intros [= _ <-];
    [apply footprint_refl |].
  split; [intros q _; reflexivity |].
  split; [exists []; cbn; now rewrite app_nil_r | repeat split].
Qed.

Lemma footprint_client_init (cfg : DataIngestionConfig) (db : string) :
  keeps (ingestion_footprint cfg) (Mongo.MongoDBClient_init db).
Proof.
  pose proof (footprint_refl cfg) as Hr. pose proof (footprint_trans cfg) as Ht.
  unfold Mongo.MongoDBClient_init. apply keeps_wrap; try assumption.
  apply keeps_bind; try assumption; [now apply keeps_gets |].
  intros shared. apply keeps_bind; try assumption.
  - destruct shared as [url |]; [now apply keeps_ret |].
    apply keeps_bind; try assumption; [now apply keeps_gets |].
    intros [url |]; [| now apply keeps_raise].
    apply keeps_bind; try assumption; [now apply keeps_gets |].
    intros [e |]; [now apply keeps_raise |].
    apply keeps_bind; try assumption; [| intros _; now apply keeps_ret].
    intros w res w' [= _ <-].
    split; [intros p _; reflexivity |].
    split; [exists []; cbn; now rewrite app_nil_r | repeat split].
  - intros url. apply keeps_bind; try assumption;
      [now apply keeps_of_result | intros _].
    apply keeps_bind; try assumption;
      [apply footprint_logging | intros _; now apply keeps_ret].
Qed.

Lemma footprint_export_collection (cfg : DataIngestionConfig)
    (c : Mongo.MongoDBClient) (name : string) (db : option string) :
  keeps (ingestion_footprint cfg)
        (Mongo.export_collection_as_dataframe c name db).
Proof.
  pose proof (footprint_refl cfg) as Hr. pose proof (footprint_trans cfg) as Ht.
  unfold Mongo.export_collection_as_dataframe. apply keeps_wrap; try assumption.
  apply keeps_bind; try assumption; [| intros docs; now apply keeps_ret].
  destruct db; [now apply keeps_raise |].
  intros w res w' [= _ <-]. apply Hr.
Qed.

(** Close a goal [keeps (ingestion_footprint cfg) m] for a program [m] made
    of the steps above. *)
Ltac footprint cfg :=
  repeat (cbn beta;
          lazymatch goal with
          | |- keeps _ (logging_info _) => apply footprint_logging
          | |- keeps _ (os_makedirs _) => apply footprint_makedirs
          | |- keeps _ (train_test_split _ _) => apply footprint_split
          | |- keeps _ (Mongo.MongoDBClient_init _) => apply footprint_client_init
          | |- keeps _ (Mongo.export_collection_as_dataframe _ _ _) =>
              apply footprint_export_collection
          | |- keeps _ (to_csv _ _) => apply footprint_to_csv; cbn [In]; tauto
          | |- keeps _ (ret _) => apply (keeps_ret _ (footprint_refl cfg))
          | |- keeps _ (try_except _ _) =>
              apply (keeps_wrap _ (footprint_refl cfg) (footprint_trans cfg))
          | |- keeps _ (bind _ _) =>
              apply (keeps_bind _ (footprint_trans cfg));
              [| intros ?]
          end).

End Footprint.

Section FootprintProperties.

Import Config Ingestion Footprint.

(** X2. However a run of the ingestion stage ends, it has touched no file
    but the three its configuration names (feature store, train, test), it
    has only added records to the log, and it has left the environment and
    the outside world as they were. *)
Theorem ingestion_touches_only_its_files (cfg : DataIngestionConfig)
    (w w' : World) (res : Result Artifact.DataIngestionArtifact) :
  initiate_data_ingestion cfg w = (res, w') ->
  (forall p, p <> feature_store_file_path cfg ->
             p <> training_file_path cfg ->
             p <> testing_file_path cfg ->
             fs w' !! p = fs w !! p)
  /\ (exists more, log w' = log w ++ more)
  /\ environ w' = environ w /\ io_fault w' = io_fault w
  /\ mongo_find w' = mongo_find w.
Proof.
  intros Hrun.
  assert (Hkeeps : keeps (ingestion_footprint cfg) (initiate_data_ingestion cfg)).
  { unfold initiate_data_ingestion, export_data_into_feature_store,
      split_data_as_train_test, Mongo.Proj1Data_init.
    footprint cfg. }
  destruct (Hkeeps _ _ _ Hrun) as (Hfs & Hlog & Henv & _ & Hfind & Hio).
  split; [| auto].
  intros p H1 H2 H3. apply Hfs. cbn [In]. intuition congruence.
Qed.

End FootprintProperties.

(** ** The exported frame *)

Module FrameFacts.

Import Frame.

Lemma first_seen_fresh (ks seen : list string) :
  NoDup (first_seen seen ks)
  /\ (forall k, In k (first_seen seen ks) -> ~ In k seen /\ In k ks).
Proof.
  revert seen. induction ks as [| k ks IH]; intros seen; cbn [first_seen].
  - split; [constructor | intros k []].
  - destruct (decide (k ∈ seen)) as [Hin | Hnin].
    + destruct (IH seen) as [Hnd Hfresh]. split; [exact Hnd |].
      intros k' Hk'. destruct (Hfresh k' Hk'). split; [assumption | now right].
    + destruct (IH (k :: seen)) as [Hnd Hfresh]. split.
      * apply NoDup_cons. split; [| exact Hnd].
        intros Hk. apply list_elem_of_In in Hk.
        destruct (Hfresh k Hk) as [Hk' _]. apply Hk'. now left.
      * intros k' [<- | Hk'].
        -- split; [| now left]. intros H. apply Hnin. now apply list_elem_of_In.
        -- destruct (Hfresh k' Hk') as [H1 H2]. split; [| now right].
           intros H. apply H1. now right.
Qed.

Lemma first_seen_complete (ks seen : list string) (k : string) :
  In k ks -> In k seen \/ In k (first_seen seen ks).
Proof.
  revert seen. induction ks as [| k0 ks IH]; intros seen; [intros [] |].
  cbn [first_seen]. intros [-> | Hk].
  - destruct (decide (k ∈ seen)) as [Hin | Hnin].
    + left. now apply list_elem_of_In.
    + right. now left.
  - destruct (decide (k0 ∈ seen)) as [Hin | Hnin]; [now apply IH |].
    destruct (IH (k0 :: seen) Hk) as [[-> | Hs] | Hf].
    + right. now left.
    + now left.
    + right. now right.
Qed.

Lemma filter_keeps_all (P : string -> Prop) `{forall k, Decision (P k)}
    (l : list string) :
  Forall P l -> filter P l = l.
Proof.
  induction 1 as [| k l Hk _ IH]; [reflexivity |].
  rewrite filter_cons_True by exact Hk. now rewrite IH.
Qed.

Lemma columns_of_documents (docs : list document) :
  columns (of_documents docs) = first_seen [] (concat (map (map fst) docs)).
Proof.
  unfold columns, of_documents. cbn [data]. rewrite map_map. apply map_id.
Qed.

Lemma of_documents_rectangular (docs : list document) :
  rectangular (of_documents docs).
Proof.
  unfold rectangular, of_documents. cbn [data nrows].
  apply Forall_forall. intros [k vs] Hin.
  apply list_elem_of_In, in_map_iff in Hin as (k' & [= <- <-] & _).
  cbn. apply length_map.
Qed.

Lemma columns_clean (df : DataFrame) :
  columns (Mongo.clean df) = filter (fun k => k <> "id") (columns df).
Proof.
  unfold Mongo.clean, columns, replace, drop_column. cbn [data].
  rewrite map_map. cbn [fst].
  destruct (decide ("id" ∈ map fst (data df))) as [Hin | Hnin]; cbn [data].
  - clear Hin. induction (data df) as [| [k vs] l IH]; [reflexivity |].
    cbn [map]. rewrite !filter_cons. cbn [fst].
    repeat case_decide; cbn [map fst]; rewrite ?IH; solve [reflexivity | contradiction].
  - symmetry. apply filter_keeps_all. apply Forall_forall.
    intros k Hk ->. now apply Hnin.
Qed.

Lemma clean_rectangular (df : DataFrame) :
  rectangular df -> rectangular (Mongo.clean df) /\ nrows (Mongo.clean df) = nrows df.
Proof.
  intros Hrect. unfold Mongo.clean.
  assert (Hdrop : rectangular
            (if decide ("id" ∈ columns df) then drop_column "id" df else df)
          /\ nrows (if decide ("id" ∈ columns df) then drop_column "id" df else df)
             = nrows df).
  { destruct (decide ("id" ∈ columns df)); [| now split].
    split; [| reflexivity]. unfold rectangular, drop_column. cbn [data nrows].
    apply Forall_forall. intros kv Hkv.
    apply list_elem_of_filter in Hkv as [_ Hkv].
    unfold rectangular in Hrect. rewrite Forall_forall in Hrect. now apply Hrect. }
  destruct Hdrop as [Hr Hn]. split; [| exact Hn].
  unfold rectangular, replace. cbn [data nrows].
  unfold rectangular in Hr. rewrite Forall_forall in Hr.
  apply Forall_forall. intros kv Hkv.
  apply list_elem_of_In, in_map_iff in Hkv as (kv' & <- & Hkv').
  cbn [snd]. rewrite length_map. apply Hr. now apply list_elem_of_In.
Qed.

Lemma replace_cell_twice (c : cell) :
  replace_cell "na" VNaN (replace_cell "na" VNaN c) = replace_cell "na" VNaN c.
Proof.
  destruct c as [s | | |]; cbn; try reflexivity.
  destruct (decide (s = "na")) as [-> | Hne]; cbn; [reflexivity |].
  now destruct (decide (s = "na")).
Qed.

Lemma clean_twice (df : DataFrame) : Mongo.clean (Mongo.clean df) = Mongo.clean df.
Proof.
  assert (Hno : ~ "id" ∈ columns (Mongo.clean df)).
  { rewrite columns_clean. intros H. apply list_elem_of_filter in H as [H _].
    now apply H. }
  unfold Mongo.clean at 1.
  destruct (decide ("id" ∈ columns (Mongo.clean df))); [contradiction |].
  unfold Mongo.clean, replace. cbn [data nrows]. f_equal.
  rewrite map_map. apply map_ext. intros [k vs]. cbn [fst snd]. f_equal.
  rewrite map_map. apply map_ext. intros c. apply replace_cell_twice.
Qed.

End FrameFacts.

Section FrameProperties.

Import Frame Mongo FrameFacts.

(** X3. What [export_collection_as_dataframe] returns for the documents of
    a collection: one row per document; every column with one cell per row;
    no column name twice; every key of every document as a column, the key
    [id] apart; no column [id]; no cell holding the string [na]. Cleaning
    the frame again would change nothing. The world is left as it was. *)
Theorem exported_frame_shape (c : MongoDBClient) (name : string)
    (docs : list document) (w : World) :
  mongo_find w (client c) (database_name c) name = inr docs ->
  exists df,
    export_collection_as_dataframe c name None w = (inr df, w)
    /\ nrows df = length docs
    /\ rectangular df
    /\ NoDup (columns df)
    /\ (forall d k v, In d docs -> In (k, v) d -> k <> "id" -> In k (columns df))
    /\ ~ In "id" (columns df)
    /\ ~ In (VStr "na") (cells df)
    /\ clean df = df.
Proof.
  intros Hfind. exists (clean (of_documents docs)).
  split.
  { unfold export_collection_as_dataframe, try_except, bind, ret.
    now rewrite Hfind. }
  destruct (clean_rectangular _ (of_documents_rectangular docs)) as [Hrect Hn].
  split; [exact Hn |]. split; [exact Hrect |].
  split.
  { rewrite columns_clean, columns_of_documents.
    apply NoDup_filter, first_seen_fresh. }
  split.
  { intros d k v Hd Hkv Hne. rewrite columns_clean, columns_of_documents.
    apply list_elem_of_In, list_elem_of_filter. split; [exact Hne |].
    apply list_elem_of_In.
    destruct (first_seen_complete (concat (map (map fst) docs)) [] k) as [[] | H];
      [| exact H].
    apply in_concat. exists (map fst d). split; [now apply in_map |].
    apply in_map_iff. now exists (k, v). }
  split; [apply clean_drops_id |].
  split; [apply clean_replaces_na | apply clean_twice].
Qed.

End FrameProperties.


(** ** Runs of the ingestion, step by step *)

Module IngestionRuns.

Import Config Artifact Ingestion IngestionFacts MongoFacts.

Lemma proj1data_connects (w : World) (url : string) :
  connects w url ->
  exists w1,
    Mongo.Proj1Data_init w
    = (inr {| Mongo.client := url; Mongo.database_name := DATABASE_NAME |}, w1)
    /\ same_disk w w1.
Proof.
  unfold Mongo.Proj1Data_init.
  intros [Hshared | (Hshared & Henv & Hconn)].
  - unfold try_except at 1. rewrite (client_init_shared _ url w Hshared).
    eexists. split; [reflexivity | repeat split].
  - unfold Mongo.MongoDBClient_init, try_except, bind, gets, raise, ret, modify,
      logging_info.
    rewrite Hshared, Henv, Hconn. eexists. split; [reflexivity | repeat split].
Qed.

Lemma proj1data_no_url (w : World) :
  shared_client w = None -> environ w !! MONGODB_URL_KEY = None ->
  Mongo.Proj1Data_init w
  = (inl (wrapped 2 (PlainException
                       "Environment variable 'MONGODB_URL' is not set.")), w).
Proof.
  intros Hshared Henv.
  unfold Mongo.Proj1Data_init, Mongo.MongoDBClient_init, try_except, bind, gets,
    raise.
  now rewrite Hshared, Henv.
Qed.

Lemma export_collection_runs (c : Mongo.MongoDBClient) (name : string)
    (w : World) :
  Mongo.export_collection_as_dataframe c name None w
  = (match mongo_find w (Mongo.client c) (Mongo.database_name c) name with
     | inl e => inl (MyException e)
     | inr docs => inr (Mongo.clean (Frame.of_documents docs))
     end, w).
Proof.
  unfold Mongo.export_collection_as_dataframe, try_except, bind, ret, raise.
  now destruct (mongo_find w _ _ _).
Qed.

(** The export, when the connection stands, the collection answers and the
    feature store can be written. *)
Lemma export_runs (cfg : DataIngestionConfig) (w : World) (url : string)
    (docs : list Frame.document) :
  connects w url ->
  mongo_find w url DATABASE_NAME (collection_name cfg) = inr docs ->
  writable w (OsPath.dirname (feature_store_file_path cfg)) ->
  writable w (feature_store_file_path cfg) ->
  exists w1,
    export_data_into_feature_store cfg w
    = (inr (Mongo.clean (Frame.of_documents docs)), w1)
    /\ fs w1 = <[feature_store_file_path cfg := Mongo.clean (Frame.of_documents docs)]>
                 (fs w)
    /\ io_fault w1 = io_fault w /\ rng w1 = rng w.
Proof.
  intros Hc Hfind Hdir Hfile.
  unfold export_data_into_feature_store, try_except.
  unfold bind at 1. unfold logging_info at 1, modify.
  unfold bind at 1.
  match goal with
  | |- context [Mongo.Proj1Data_init ?w0] =>
      destruct (proj1data_connects w0 url Hc) as (w1 & -> & Hfs & Hio & Hrng & Hmf)
  end.
  unfold bind at 1. rewrite export_collection_runs. cbn [Mongo.client Mongo.database_name].
  rewrite Hmf. cbn [mongo_find set_log]. rewrite Hfind.
  unfold bind at 1. unfold logging_info at 1, modify.
  unfold bind at 1. rewrite makedirs_writable
    by (destruct Hdir as [? Hd]; split; [assumption | cbn; now rewrite Hio]).
  unfold bind at 1. unfold logging_info at 1, modify.
  unfold bind at 1. rewrite to_csv_writable
    by (destruct Hfile as [? Hf]; split; [assumption | cbn; now rewrite Hio]).
  unfold ret. eexists. split; [reflexivity |].
  cbn [fs set_fs set_log io_fault rng]. rewrite Hfs. auto.
Qed.

(** The export that returned: where its frame came from. *)
Lemma export_returned (cfg : DataIngestionConfig) (w w1 : World)
    (df : Frame.DataFrame) :
  export_data_into_feature_store cfg w = (inr df, w1) ->
  exists url docs,
    mongo_find w url DATABASE_NAME (collection_name cfg) = inr docs
    /\ df = Mongo.clean (Frame.of_documents docs).
Proof.
  unfold export_data_into_feature_store, Mongo.Proj1Data_init. intros H.
  run_inv.
  match goal with
  | H : logging_info _ w = (inr _, _) |- _ => apply logging_info_inv in H; subst
  end.
  match goal with
  | H : Mongo.MongoDBClient_init _ _ = (inr ?c, ?w2) |- _ =>
      pose proof (Footprint.footprint_client_init cfg _ _ _ _ H)
        as (_ & _ & _ & _ & Hmf & _);
      destruct (client_init_returned _ _ _ _ H) as (Hdb & _ & _)
  end.
  match goal with
  | H : Mongo.export_collection_as_dataframe ?c _ _ ?w2 = _ |- _ =>
      rewrite export_collection_runs in H; exists (Mongo.client c);
      destruct (mongo_find w2 (Mongo.client c) (Mongo.database_name c)
                           (collection_name cfg)) as [e | docs] eqn:Hfind;
      [discriminate H | injection H as <- <-]
  end.
  exists docs. rewrite Hdb, Hmf in Hfind. split; [exact Hfind | reflexivity].
Qed.

(** The stage in a process that has no connection string. *)
Lemma stage_without_url (cfg : DataIngestionConfig) (w : World) :
  shared_client w = None ->
  environ w !! MONGODB_URL_KEY = None ->
  exists w',
    initiate_data_ingestion cfg w
    = (inl (wrapped 4 (PlainException
                         "Environment variable 'MONGODB_URL' is not set.")), w')
    /\ fs w' = fs w
    /\ shared_client w' = None
    /\ log w'
       = log w
         ++ [INFO "Entered initiate_data_ingestion method of Data_Ingestion class";
             INFO "Exporting data from mongodb"].
Proof.
  intros Hshared Henv. eexists. split.
  - unfold initiate_data_ingestion, export_data_into_feature_store.
    unfold bind at 1. unfold logging_info at 1, modify.
    unfold try_except at 1. unfold bind at 1. unfold try_except at 1.
    unfold bind at 1. unfold logging_info at 1, modify.
    unfold bind at 1. rewrite proj1data_no_url by assumption.
    reflexivity.
  - cbn [fs shared_client log set_log].
    split; [reflexivity |]. split; [exact Hshared |].
    now rewrite <- app_assoc.
Qed.

End IngestionRuns.

Section IngestionOutcomes.

Import Config Artifact Ingestion IngestionFacts IngestionRuns.

Lemma exported_rows (docs : list Frame.document) :
  Frame.nrows (Mongo.clean (Frame.of_documents docs)) = length docs.
Proof.
  now destruct (FrameFacts.clean_rectangular _
                  (FrameFacts.of_documents_rectangular docs)) as [_ ->].
Qed.

(** A split the library refuses: nothing is written. *)
Lemma split_refused (cfg : DataIngestionConfig) (df : Frame.DataFrame)
    (w : World) (e : Exn) :
  Sklearn.validate_shuffle_split (Frame.nrows df) (train_test_split_ratio cfg)
  = inl e ->
  split_data_as_train_test cfg df w
  = (inl (MyException e),
     set_log (log w ++ [INFO "Entered split_data_as_train_test method of Data_Ingestion class"]) w).
Proof.
  intros Hv.
  unfold split_data_as_train_test, bind, try_except, raise, logging_info,
    modify, train_test_split, Sklearn.train_test_split.
  cbn [rng set_log]. now rewrite Hv.
Qed.

(** X4. The whole stage, when nothing stands in its way: with a connection,
    a collection of [n] documents, fewer than 2^53, a float ratio in (0,1)
    whose test share (the float product rounded up) is smaller than [n], and
    paths that can be written, the stage returns the artifact of the
    configured paths, having written three frames one after the other: the
    cleaned frame of all [n] documents to the feature store, then a train
    set and a test set that hold [n] rows between them, the test set the
    test share, which is the exact product rounded down or rounded up. *)
Theorem ingestion_returns (cfg : DataIngestionConfig) (w : World)
    (url : string) (docs : list Frame.document) (r : Number.float) :
  let n := length docs in
  let exact := (Number.to_Q r * inject_Z (Z.of_nat n))%Q in
  connects w url ->
  mongo_find w url DATABASE_NAME (collection_name cfg) = inr docs ->
  train_test_split_ratio cfg = Number.PyFloat r ->
  (0 < Number.to_Q r /\ Number.to_Q r < 1)%Q ->
  (Z.of_nat n < 2 ^ 53)%Z ->
  (Sklearn.test_share n (Number.PyFloat r) < Z.of_nat n)%Z ->
  writable w (OsPath.dirname (feature_store_file_path cfg)) ->
  writable w (feature_store_file_path cfg) ->
  writable w (OsPath.dirname (training_file_path cfg)) ->
  writable w (training_file_path cfg) ->
  writable w (testing_file_path cfg) ->
  exists w' train test,
    initiate_data_ingestion cfg w
    = (inr {| trained_file_path := training_file_path cfg;
              test_file_path := testing_file_path cfg |}, w')
    /\ fs w'
       = <[testing_file_path cfg := test]>
           (<[training_file_path cfg := train]>
              (<[feature_store_file_path cfg :=
                   Mongo.clean (Frame.of_documents docs)]> (fs w)))
    /\ (Frame.nrows train + Frame.nrows test = n)%nat
    /\ Z.of_nat (Frame.nrows test) = Sklearn.test_share n (Number.PyFloat r)
    /\ (Qfloor exact <= Z.of_nat (Frame.nrows test) <= Qceiling exact)%Z.
Proof.
  intros n exact Hc Hfind Hcfg Hr _ Hlt Hfd Hff Htd Htf Hsf.
  set (df := Mongo.clean (Frame.of_documents docs)).
  assert (Hn : Frame.nrows df = n) by apply exported_rows.
  set (w0 := set_log (log w ++ [INFO "Entered initiate_data_ingestion method of Data_Ingestion class"]) w).
  destruct (export_runs cfg w0 url docs Hc Hfind Hfd Hff)
    as (w1 & Hexp & Hfs1 & Hio1 & Hrng1).
  fold df in Hexp, Hfs1.
  set (w2 := set_log (log w1 ++ [INFO "Got the data from mongodb"]) w1).
  pose proof (SklearnFacts.train_test_split_sizes (rng w2) df
                (Number.PyFloat r)) as Hsz.
  rewrite Hn, (SklearnFacts.validate_accepts n r Hr Hlt) in Hsz.
  destruct Hsz as (train & test & Hsplit & Hntr & Hnte).
  rewrite <- Hcfg in Hsplit.
  destruct (SklearnFacts.test_share_bounds n r Hr) as (Hb & [Hlo Hhi] & _).
  fold exact in Hb.
  assert (Hw : forall p, writable w p -> writable w2 p).
  { intros p [Hp Hf]. split; [exact Hp |]. cbn. now rewrite Hio1. }
  destruct (split_writes cfg df train test w2 Hsplit (Hw _ Htd) (Hw _ Htf)
              (Hw _ Hsf)) as (w3 & Hrun & Hfs3).
  exists (set_log
            (((log w3 ++ [INFO "Performed train test split on the dataset"])
              ++ [INFO "Exited initiate_data_ingestion method of Data_Ingestion class"])
             ++ [INFO ("Data ingestion artifact: "
                       +:+ artifact_repr
                             {| trained_file_path := training_file_path cfg;
                                test_file_path := testing_file_path cfg |})])
            w3), train, test.
  split.
  { unfold initiate_data_ingestion.
    unfold bind at 1. unfold logging_info at 1, modify. fold w0.
    unfold try_except. unfold bind at 1. rewrite Hexp.
    unfold bind at 1. unfold logging_info at 1, modify. fold w2.
    unfold bind at 1. rewrite Hrun.
    reflexivity. }
  assert (Hte : Z.of_nat (Frame.nrows test)
                = Sklearn.test_share n (Number.PyFloat r)).
  { rewrite Hnte. lia. }
  split.
  { cbn [fs set_log]. rewrite Hfs3. subst w2 w0. cbn [fs set_log] in *.
    now rewrite Hfs1. }
  split. { rewrite Hntr, Hnte. lia. }
  split; [exact Hte |].
  rewrite Hte. exact Hb.
Qed.

(** X5. A split the library refuses does not undo the export: with a
    connection and a writable feature store, when the number of documents
    and the ratio are refused (a ratio outside (0,1), an empty collection, a
    train part that would be empty), the stage raises the library's error
    wrapped twice, the feature store file has been written all the same, and
    no other file has. *)
Theorem snapshot_survives_refused_split (cfg : DataIngestionConfig) (w : World)
    (url : string) (docs : list Frame.document) (e : Exn) :
  connects w url ->
  mongo_find w url DATABASE_NAME (collection_name cfg) = inr docs ->
  writable w (OsPath.dirname (feature_store_file_path cfg)) ->
  writable w (feature_store_file_path cfg) ->
  Sklearn.validate_shuffle_split (length docs) (train_test_split_ratio cfg)
  = inl e ->
  exists w',
    initiate_data_ingestion cfg w = (inl (wrapped 2 e), w')
    /\ fs w' = <[feature_store_file_path cfg :=
                   Mongo.clean (Frame.of_documents docs)]> (fs w).
Proof.
  intros Hc Hfind Hfd Hff Hv.
  set (w0 := set_log (log w ++ [INFO "Entered initiate_data_ingestion method of Data_Ingestion class"]) w).
  destruct (export_runs cfg w0 url docs Hc Hfind Hfd Hff)
    as (w1 & Hexp & Hfs1 & _).
  rewrite <- exported_rows in Hv.
  eexists. split.
  - unfold initiate_data_ingestion.
    unfold bind at 1. unfold logging_info at 1, modify. fold w0.
    unfold try_except. unfold bind at 1. rewrite Hexp.
    unfold bind at 1. unfold logging_info at 1, modify.
    unfold bind at 1. rewrite (split_refused cfg _ _ e Hv).
    reflexivity.
  - cbn [fs set_log]. exact Hfs1.
Qed.

(** X6. A collection the library cannot split makes the stage raise in
    every world: whatever else happens, no artifact is returned when the
    number of documents and the ratio are refused. *)
Theorem unsplittable_collection_raises (cfg : DataIngestionConfig) (w : World)
    (docs : list Frame.document) (e : Exn) :
  (forall url, mongo_find w url DATABASE_NAME (collection_name cfg) = inr docs) ->
  Sklearn.validate_shuffle_split (length docs) (train_test_split_ratio cfg)
  = inl e ->
  exists e' w', initiate_data_ingestion cfg w = (inl (MyException e'), w').
Proof.
  intros Hfind Hv.
  destruct (initiate_data_ingestion cfg w) as [res w'] eqn:Hrun.
  destruct (initiate_wraps _ _ _ _ Hrun) as [[e' ->] | ->]; [eauto |].
  exfalso. unfold initiate_data_ingestion in Hrun. run_inv.
  match goal with
  | H : export_data_into_feature_store _ _ = _ |- _ =>
      apply export_returned in H as (url & docs' & Hf & ->)
  end.
  match goal with
  | H : logging_info _ w = _ |- _ => apply logging_info_inv in H; subst
  end.
  cbn [mongo_find set_log] in Hf. rewrite Hfind in Hf. injection Hf as <-.
  rewrite <- exported_rows in Hv.
  match goal with
  | H : split_data_as_train_test cfg _ ?w0 = (inr _, _) |- _ =>
      rewrite (split_refused cfg _ w0 e Hv) in H; discriminate H
  end.
Qed.

(** The test share of the configured ratio 0.25: a quarter of a row count
    is a float exactly, so nothing is rounded but by [ceil]. *)
Lemma default_test_share (n : nat) :
  Sklearn.test_share n DATA_INGESTION_TRAIN_TEST_SPLIT_RATIO
  = ((Z.of_nat n + 3) / 4)%Z.
Proof.
  unfold DATA_INGESTION_TRAIN_TEST_SPLIT_RATIO.
  cbn [Sklearn.test_share Sklearn.n_test_of].
  assert (Hexact : Number.ceil {| Number.mant := 1 * Z.of_nat n; Number.expo := -2 |}
                   = ((Z.of_nat n + 3) / 4)%Z).
  { rewrite SklearnFacts.ceil_nonpos_expo by lia.
    change (2 ^ (- -2))%Z with 4%Z.
    Z.to_euclidean_division_equations. lia. }
  unfold Number.mul_count. cbn [Number.mant Number.expo].
  destruct (Z.ltb_spec (Z.of_nat n) (2 ^ 53)) as [Hn | Hn]; [| exact Hexact].
  unfold Number.round53.
  destruct (Z.leb_spec (Number.bits (1 * Z.of_nat n) - 53) 0) as [Hk | Hk];
    [exact Hexact |].
  exfalso. rewrite Z.mul_1_l in Hk.
  destruct (Z.eq_dec (Z.of_nat n) 0%Z) as [E | E].
  { rewrite E in Hk. cbn in Hk. lia. }
  destruct (SklearnFacts.bits_spec (Z.of_nat n) ltac:(lia)) as [Hlo _].
  assert (Hlt : (2 ^ (Number.bits (Z.of_nat n) - 1) < 2 ^ 53)%Z) by lia.
  apply Z.pow_lt_mono_r_iff in Hlt; lia.
Qed.

(** X7. The sizes under the configured ratio 0.25: a frame of at least two
    rows is split into [(n + 3) / 4] test rows (a quarter, rounded up) and
    the rest as train rows; a frame of no row or one row is refused. *)
Theorem default_split_sizes (n : nat) :
  (2 <= n ->
   Sklearn.validate_shuffle_split n DATA_INGESTION_TRAIN_TEST_SPLIT_RATIO
   = inr (n - (n + 3) / 4, (n + 3) / 4))%nat
  /\ (n < 2 ->
      exists e,
        Sklearn.validate_shuffle_split n DATA_INGESTION_TRAIN_TEST_SPLIT_RATIO
        = inl e)%nat.
Proof.
  set (quarter := {| Number.mant := 1; Number.expo := -2 |}).
  assert (Hr : (0 < Number.to_Q quarter /\ Number.to_Q quarter < 1)%Q)
    by (split; reflexivity).
  pose proof (default_test_share n) as Hshare.
  change DATA_INGESTION_TRAIN_TEST_SPLIT_RATIO with (Number.PyFloat quarter)
    in *.
  assert (Hdiv : Z.of_nat ((n + 3) / 4) = ((Z.of_nat n + 3) / 4)%Z).
  { rewrite Nat2Z.inj_div, Nat2Z.inj_add. reflexivity. }
  split; intros Hn.
  - rewrite SklearnFacts.validate_accepts; [| exact Hr |].
    + rewrite Hshare, <- Hdiv. f_equal. f_equal; lia.
    + rewrite Hshare.
      Z.to_euclidean_division_equations. lia.
  - eexists. apply SklearnFacts.validate_refuses_empty_train; [exact Hr |].
    rewrite Hshare.
    assert (n = 0 \/ n = 1)%nat as [-> | ->] by lia; reflexivity.
Qed.

(** X8. Without the variable [MONGODB_URL] (and without a client shared
    earlier) the stage raises the [Exception] that names the variable under
    four layers of [MyException], one for each method the error passes on
    its way up ([MongoDBClient.__init__], [Proj1Data.__init__],
    [export_data_into_feature_store], [initiate_data_ingestion]); two
    records have been logged, no file has been written and no client is
    stored. *)
Theorem missing_url_fails_the_stage (cfg : DataIngestionConfig) (w : World) :
  shared_client w = None ->
  environ w !! MONGODB_URL_KEY = None ->
  exists w',
    initiate_data_ingestion cfg w
    = (inl (wrapped 4 (PlainException
                         "Environment variable 'MONGODB_URL' is not set.")), w')
    /\ fs w' = fs w
    /\ shared_client w' = None
    /\ log w'
       = log w
         ++ [INFO "Entered initiate_data_ingestion method of Data_Ingestion class";
             INFO "Exporting data from mongodb"].
Proof. apply stage_without_url. Qed.

(** X9. A collection that cannot be read (the server does not answer, the
    query fails) makes the stage raise the driver's error under three layers
    of [MyException], with no file written. *)
Theorem failed_query_fails_the_stage (cfg : DataIngestionConfig) (w : World)
    (url : string) (e : Exn) :
  connects w url ->
  mongo_find w url DATABASE_NAME (collection_name cfg) = inl e ->
  exists w',
    initiate_data_ingestion cfg w = (inl (wrapped 3 e), w')
    /\ fs w' = fs w.
Proof.
  intros Hc Hfind.
  set (w0 := set_log (log w ++ [INFO "Entered initiate_data_ingestion method of Data_Ingestion class"]) w).
  set (w0' := set_log (log w0 ++ [INFO "Exporting data from mongodb"]) w0).
  destruct (proj1data_connects w0' url Hc) as (w1 & Hinit & Hfs & _ & _ & Hmf).
  eexists. split.
  - unfold initiate_data_ingestion, export_data_into_feature_store.
    unfold bind at 1. unfold logging_info at 1, modify. fold w0.
    unfold try_except at 1. unfold bind at 1. unfold try_except at 1.
    unfold bind at 1. unfold logging_info at 1, modify. fold w0'.
    unfold bind at 1. rewrite Hinit.
    unfold bind at 1. rewrite export_collection_runs.
    cbn [Mongo.client Mongo.database_name]. rewrite Hmf.
    subst w0' w0. cbn [mongo_find set_log]. rewrite Hfind.
    reflexivity.
  - rewrite Hfs. reflexivity.
Qed.

(** X10. The two files of a split are written one after the other, and a
    failure at the second does not take back the first: when the test file
    cannot be written, the split raises that error wrapped, and the train
    file is on disk. *)
Theorem train_file_survives_failed_test_write (cfg : DataIngestionConfig)
    (df train test : Frame.DataFrame) (w : World) (e : Exn) :
  Sklearn.train_test_split (rng w) df (train_test_split_ratio cfg)
  = inr (train, test) ->
  writable w (OsPath.dirname (training_file_path cfg)) ->
  writable w (training_file_path cfg) ->
  testing_file_path cfg <> EmptyString ->
  io_fault w (testing_file_path cfg) = Some e ->
  exists w',
    split_data_as_train_test cfg df w = (inl (MyException e), w')
    /\ fs w' = <[training_file_path cfg := train]> (fs w)
    /\ fs w' !! training_file_path cfg = Some train.
Proof.
  intros Hsplit Hdir Htrain Hne Hio.
  eexists. split.
  - unfold split_data_as_train_test.
    unfold bind at 1. unfold logging_info at 1, modify.
    unfold try_except, bind at 1. unfold train_test_split at 1.
    cbn [rng set_log]. rewrite Hsplit.
    do 2 (unfold bind at 1; unfold logging_info at 1, modify).
    unfold bind at 1. rewrite makedirs_writable by exact Hdir.
    unfold bind at 1; unfold logging_info at 1, modify.
    unfold bind at 1. rewrite to_csv_writable by exact Htrain.
    unfold bind at 1. unfold to_csv at 1.
    destruct (testing_file_path cfg) as [| c p] eqn:Hp; [contradiction |].
    cbn [io_fault set_fs set_log set_rng]. rewrite Hio.
    unfold raise. reflexivity.
  - cbn [fs set_fs set_log set_rng]. split; [reflexivity |].
    apply lookup_insert_eq.
Qed.

End IngestionOutcomes.

(** ** The two parts of a split *)

Section SplitProperties.

Import Sklearn.

Lemma insert_at_permutation (k x : nat) (l : list nat) :
  Permutation (insert_at k x l) (x :: l).
Proof.
  revert k. induction l as [| y l IH]; intros [| k]; cbn; try reflexivity.
  rewrite IH. apply perm_swap.
Qed.

Lemma shuffle_permutation (l : list nat) (draws : nat -> nat) :
  Permutation (shuffle draws l) l.
Proof.
  revert draws. induction l as [| x l IH]; intros draws; cbn; [reflexivity |].
  rewrite insert_at_permutation. now rewrite IH.
Qed.

(** X11. A split loses no row and takes none twice: the rows of the train
    part and of the test part are the rows of the frame at two lists of
    positions that together are a rearrangement of all positions
    [0 .. n-1]. Neither part is empty, and both keep the columns of the
    frame. *)
Theorem split_is_a_partition (draws : nat -> nat) (df train test : Frame.DataFrame)
    (r : Number.Number) :
  train_test_split draws df r = inr (train, test) ->
  exists ind_train ind_test,
    train = Frame.take_rows ind_train df
    /\ test = Frame.take_rows ind_test df
    /\ Permutation (ind_test ++ ind_train) (seq 0 (Frame.nrows df))
    /\ (0 < Frame.nrows train)%nat /\ (0 < Frame.nrows test)%nat
    /\ Frame.columns train = Frame.columns df
    /\ Frame.columns test = Frame.columns df.
Proof.
  unfold train_test_split.
  destruct (validate_shuffle_split (Frame.nrows df) r) as [e | [n_train n_test]]
    eqn:Hv; [discriminate |].
  intros [= <- <-].
  destruct (SklearnFacts.accepted_sizes _ _ _ _ Hv) as (Hsum & Htr & Hte).
  pose proof (SklearnFacts.length_permutation draws (Frame.nrows df)) as Hlen.
  eexists _, _. split; [reflexivity |]. split; [reflexivity |].
  assert (Hcols : forall idx, Frame.columns (Frame.take_rows idx df)
                              = Frame.columns df).
  { intros idx. unfold Frame.columns, Frame.take_rows. cbn [Frame.data].
    rewrite map_map. reflexivity. }
  split.
  { rewrite (take_ge (drop n_test _)) by (rewrite length_drop; lia).
    rewrite take_drop. apply shuffle_permutation. }
  cbn [Frame.nrows Frame.take_rows].
  rewrite !length_take, length_drop, Hlen.
  repeat split; try apply Hcols; lia.
Qed.

End SplitProperties.

(** ** Every run of the orchestrator *)

Section RunProperties.

Import Config Artifact Pipeline PipelineFacts.

Variable C : Components.
Variable self : TrainPipeline.

(** X12. The orchestrator has no failure of its own: when [run_pipeline]
    raises, one of the components has raised, and what [run_pipeline] raises
    is that component's exception wrapped twice; when it returns, no
    component has raised. *)
Theorem run_fails_only_with_a_stage (w : World) (res : Result unit) (r' : Run) :
  run_pipeline C self (start w) = (res, r') ->
  (forall err, res = inl err ->
     exists s e, raised_in s e (trace r') /\ err = MyException (MyException e))
  /\ (res = inr tt -> forall s e, ~ raised_in s e (trace r')).
Proof.
  intros Hrun. split.
  - intros err Herr.
    all_runs C Hrun; try discriminate Herr; injection Herr as <-;
      eexists _, _; (split; [eexists; cbn [In]; eauto 10 | reflexivity]).
  - intros Hres s e [arg Hin].
    all_runs C Hrun; try discriminate Hres; pick_event Hin; discriminate Hin.
Qed.

(** X13. The components run in one fixed order and never twice: in every
    run, however it ends, the components invoked are the first [k] of the
    six in their order, for some [k] from 1 to 6; the ingestion always
    runs. *)
Theorem stages_run_in_order (w : World) (res : Result unit) (r' : Run) :
  run_pipeline C self (start w) = (res, r') ->
  exists k, (1 <= k <= 6)%nat /\ stages_of (trace r') = take k stage_order.
Proof.
  intros Hrun.
  all_runs C Hrun;
    first [ exists 1%nat; split; [lia | reflexivity]
          | exists 2%nat; split; [lia | reflexivity]
          | exists 3%nat; split; [lia | reflexivity]
          | exists 4%nat; split; [lia | reflexivity]
          | exists 5%nat; split; [lia | reflexivity]
          | exists 6%nat; split; [lia | reflexivity] ].
Qed.

(** X14. The orchestrator does not look at the outcome of the validation:
    whenever the validation returns an artifact, with [validation_status]
    true or false, the transformation is invoked, once, and it is handed the
    ingestion artifact and that validation artifact. *)
Theorem validation_status_is_not_inspected (w : World) (res : Result unit)
    (r' : Run) :
  run_pipeline C self (start w) = (res, r') ->
  forall dva, returned_in DataValidation (OfValidation dva) (trace r') ->
    times DataTransformation (trace r') = 1%nat
    /\ exists dia o,
         returned_in DataIngestion (OfIngestion dia) (trace r')
         /\ In {| stage := DataTransformation;
                   given := [OfIngestion dia; OfValidation dva];
                   outcome := o |}
               (trace r').
Proof.
  intros Hrun dva [arg Hin].
  all_runs C Hrun; pick_event Hin; try discriminate Hin;
    injection Hin as <- <-;
    (split; [reflexivity |]);
    eexists _, _; (split; [eexists; cbn [In]; eauto 10 | cbn [In]; eauto 10]).
Qed.

End RunProperties.

(** ** Paths: [dirname] after [join] *)

Module PathFacts.

Import OsPath.

Lemma append_empty_r (s : string) : s +:+ EmptyString = s.
Proof. induction s as [| c s IH]; cbv [String.append]; [reflexivity |].
  fold String.append. now rewrite IH. Qed.

Lemma append_cons (c : ascii) (s t : string) :
  String c s +:+ t = String c (s +:+ t).
Proof. reflexivity. Qed.

Lemma append_cancel_l (a x y : string) : a +:+ x = a +:+ y -> x = y.
Proof.
  induction a as [| c a IH]; [now cbv [String.append] |].
  rewrite !append_cons. intros [= H]. now apply IH.
Qed.

Lemma rev_app_append (s t : string) :
  String.rev_app s t = String.rev s +:+ t.
Proof.
  unfold String.rev. revert t. induction s as [| c s IH]; intros t; [reflexivity |].
  cbn [String.rev_app]. rewrite (IH (String c t)), (IH (String c EmptyString)).
  now rewrite append_assoc.
Qed.

Lemma rev_cons (c : ascii) (s : string) :
  String.rev (String c s) = String.rev s +:+ String c EmptyString.
Proof. unfold String.rev at 1. cbn [String.rev_app]. apply rev_app_append. Qed.

Lemma rev_append (s t : string) :
  String.rev (s +:+ t) = String.rev t +:+ String.rev s.
Proof.
  induction s as [| c s IH].
  - change (EmptyString +:+ t) with t. now rewrite append_empty_r.
  - rewrite append_cons, !rev_cons, IH. apply append_assoc.
Qed.

Lemma rev_involutive (s : string) : String.rev (String.rev s) = s.
Proof.
  induction s as [| c s IH]; [reflexivity |].
  now rewrite rev_cons, rev_append, IH.
Qed.

Lemma has_sep_append (s t : string) :
  has_sep (s +:+ t) = has_sep s || has_sep t.
Proof.
  induction s as [| c s IH]; [reflexivity |].
  rewrite append_cons. cbn [has_sep]. now rewrite IH, orb_assoc.
Qed.

Lemma has_sep_rev (s : string) : has_sep (String.rev s) = has_sep s.
Proof.
  induction s as [| c s IH]; [reflexivity |].
  rewrite rev_cons, has_sep_append, IH. cbn [has_sep].
  now rewrite orb_false_r, orb_comm.
Qed.

Lemma drop_to_sep_append (s t : string) :
  has_sep s = false ->
  drop_to_sep (s +:+ String "/" t) = String "/" t.
Proof.
  induction s as [| c s IH]; [reflexivity |].
  cbn [has_sep]. intros H. apply orb_false_iff in H as [Hc Hs].
  rewrite append_cons. cbn [drop_to_sep]. rewrite Hc. now apply IH.
Qed.

Lemma starts_with_sep_rev (s : string) :
  starts_with_sep (String.rev s) = ends_with_sep s.
Proof.
  induction s as [| c s IH]; [reflexivity |].
  rewrite rev_cons. destruct s as [| c' s]; [reflexivity |].
  change (ends_with_sep (String c (String c' s)))
    with (ends_with_sep (String c' s)).
  rewrite <- IH.
  rewrite rev_cons. destruct (String.rev s +:+ String c' EmptyString) eqn:E.
  - destruct (String.rev s); discriminate E.
  - reflexivity.
Qed.

Lemma lstrip_relative (s : string) :
  starts_with_sep s = false -> lstrip_sep s = s.
Proof. destruct s as [| c s]; [reflexivity |]. cbn. now intros ->. Qed.

(** The directory of a name joined below a directory is that directory. *)
Lemma dirname_of_joined (a b : string) :
  a <> EmptyString -> ends_with_sep a = false -> has_sep b = false ->
  dirname (a +:+ "/" +:+ b) = a.
Proof.
  intros Ha Hend Hb. unfold dirname.
  rewrite rev_append, rev_append. change (String.rev "/") with "/".
  rewrite append_assoc. change ("/" +:+ String.rev a) with (String "/" (String.rev a)).
  rewrite drop_to_sep_append by now rewrite has_sep_rev.
  change (lstrip_sep (String "/" (String.rev a)))
    with (lstrip_sep (String.rev a)).
  rewrite lstrip_relative by now rewrite starts_with_sep_rev.
  destruct (String.rev a) eqn:E.
  - exfalso. apply Ha. now rewrite <- (rev_involutive a), E.
  - now rewrite <- E, rev_involutive.
Qed.

End PathFacts.

Section LayoutProperties.

Import Config PathFacts.

(** X15. Where the default ingestion configuration puts its files, for
    every load time: the feature store at
    [<dir>/feature_store/data.csv], the train and the test file side by
    side at [<dir>/ingested/train.csv] and [<dir>/ingested/test.csv], with
    [<dir>] the ingestion directory of the run. The three paths differ, and
    the directory of the test file is the directory of the train file,
    the only one the split creates. *)
Theorem default_ingestion_layout (now : datetime) :
  let c := default_DataIngestionConfig now in
  let dir := data_ingestion_dir c in
  feature_store_file_path c = dir +:+ "/feature_store/data.csv"
  /\ training_file_path c = dir +:+ "/ingested/train.csv"
  /\ testing_file_path c = dir +:+ "/ingested/test.csv"
  /\ OsPath.dirname (feature_store_file_path c) = dir +:+ "/feature_store"
  /\ OsPath.dirname (training_file_path c) = dir +:+ "/ingested"
  /\ OsPath.dirname (testing_file_path c)
     = OsPath.dirname (training_file_path c)
  /\ NoDup [feature_store_file_path c; training_file_path c;
            testing_file_path c].
Proof.
  destruct (root_is_open now) as [Hne Hend].
  cbn zeta.
  set (dir := data_ingestion_dir (default_DataIngestionConfig now)).
  destruct (join_name _ DATA_INGESTION_DIR_NAME Hne Hend)
    as (Hdir & Hdne & Hdend); [reflexivity | discriminate | reflexivity |].
  change (OsPath.join _ DATA_INGESTION_DIR_NAME) with dir in *.
  destruct (join_name dir DATA_INGESTION_FEATURE_STORE_DIR Hdne Hdend)
    as (Hfs & Hfne & Hfend); [reflexivity | discriminate | reflexivity |].
  destruct (join_name dir DATA_INGESTION_INGESTED_DIR Hdne Hdend)
    as (Hin & Hine & Hiend); [reflexivity | discriminate | reflexivity |].
  assert (Hfeature : feature_store_file_path (default_DataIngestionConfig now)
                     = (dir +:+ "/feature_store") +:+ "/" +:+ "data.csv").
  { cbn [feature_store_file_path default_DataIngestionConfig]. unfold OsPath.join3.
    change (OsPath.join _ DATA_INGESTION_DIR_NAME) with dir.
    destruct (join_name _ FILE_NAME Hfne Hfend) as (-> & _);
      [reflexivity | discriminate | reflexivity |].
    now rewrite Hfs, !append_assoc. }
  assert (Htrain : training_file_path (default_DataIngestionConfig now)
                   = (dir +:+ "/ingested") +:+ "/" +:+ "train.csv").
  { cbn [training_file_path default_DataIngestionConfig]. unfold OsPath.join3.
    change (OsPath.join _ DATA_INGESTION_DIR_NAME) with dir.
    destruct (join_name _ TRAIN_FILE_NAME Hine Hiend) as (-> & _);
      [reflexivity | discriminate | reflexivity |].
    now rewrite Hin, !append_assoc. }
  assert (Htest : testing_file_path (default_DataIngestionConfig now)
                  = (dir +:+ "/ingested") +:+ "/" +:+ "test.csv").
  { cbn [testing_file_path default_DataIngestionConfig]. unfold OsPath.join3.
    change (OsPath.join _ DATA_INGESTION_DIR_NAME) with dir.
    destruct (join_name _ TEST_FILE_NAME Hine Hiend) as (-> & _);
      [reflexivity | discriminate | reflexivity |].
    now rewrite Hin, !append_assoc. }
  assert (Hopen : forall name,
             name <> EmptyString -> OsPath.ends_with_sep name = false ->
             (dir +:+ "/" +:+ name) <> EmptyString
             /\ OsPath.ends_with_sep (dir +:+ "/" +:+ name) = false).
  { intros name H1 H2. split.
    - destruct dir; [contradiction | discriminate].
    - rewrite ends_with_sep_append by discriminate.
      now rewrite (ends_with_sep_append "/" name H1). }
  destruct (Hopen "feature_store") as [Fne Fend]; [discriminate | reflexivity |].
  destruct (Hopen "ingested") as [Ine Iend]; [discriminate | reflexivity |].
  rewrite Hfeature, Htrain, Htest.
  change (dir +:+ "/" +:+ "feature_store") with (dir +:+ "/feature_store")
    in Fne, Fend.
  change (dir +:+ "/" +:+ "ingested") with (dir +:+ "/ingested") in Ine, Iend.
  rewrite !(dirname_of_joined _ _ Fne Fend), !(dirname_of_joined _ _ Ine Iend)
    by reflexivity.
  rewrite !append_assoc.
  repeat split.
  apply NoDup_cons. split.
  { intros H. apply list_elem_of_In in H. cbn [In] in H.
    destruct H as [H | [H | []]]; apply append_cancel_l in H; discriminate H. }
  apply NoDup_cons. split.
  { intros H. apply list_elem_of_In in H. cbn [In] in H.
    destruct H as [H | []]. apply append_cancel_l in H. discriminate H. }
  apply NoDup_singleton.
Qed.

End LayoutProperties.

Section MisconfiguredRun.

Import Config Artifact Pipeline.

Variable C : Components.

(** X16. A whole run in a process without the variable [MONGODB_URL] (and
    without a client shared earlier): [run_pipeline] raises the [Exception]
    that names the variable under six layers of [MyException] (four from
    the ingestion stage, one from [start_data_ingestion], one from
    [run_pipeline]); the ingestion is the only component invoked, no file
    is written, and the last log record is the error record. *)
Theorem run_without_url (now : datetime) (w : World) :
  shared_client w = None ->
  environ w !! MONGODB_URL_KEY = None ->
  exists r',
    run_pipeline C (TrainPipeline_init now) (start w)
    = (inl (wrapped 6 (PlainException
                         "Environment variable 'MONGODB_URL' is not set.")), r')
    /\ stages_of (trace r') = [DataIngestion]
    /\ fs (world r') = fs w
    /\ last (log (world r'))
       = Some (ERROR "Error in pipeline execution: "
                 (wrapped 5 (PlainException
                               "Environment variable 'MONGODB_URL' is not set."))).
Proof.
  intros Hshared Henv.
  unfold run_pipeline, start_data_ingestion, try_except, bind, info, lift,
    invoke, raise, ret, logging_info, logging_error, modify.
  cbn -[Ingestion.initiate_data_ingestion].
  match goal with
  | |- context [Ingestion.initiate_data_ingestion ?c ?w0] =>
      destruct (IngestionRuns.stage_without_url c w0 Hshared Henv)
        as (w' & -> & Hfs & _)
  end.
  eexists. split; [reflexivity |].
  cbn [trace world stages_of map stage app fs log set_log].
  split; [reflexivity |]. split; [exact Hfs |].
  apply last_snoc.
Qed.

End MisconfiguredRun.

(** ** Sample runs of the further properties *)

Section FurtherRuns.

Import Config Artifact Ingestion Pipeline.

Lemma connection_is_made_once_witness :
  let first := Mongo.MongoDBClient_init "Proj1" Sample.world in
  let later := Sample.without_url (snd first) in
  Mongo.MongoDBClient_init "Reports" later
  = (inr {| Mongo.client := "mongodb+srv://cluster0";
            Mongo.database_name := "Reports" |},
     set_log (log later ++ [INFO "MongoDB connection successful."]) later)
  /\ Mongo.MongoDBClient_init "Monthly Reports" later
     = (inl (MyException
               (Mongo.InvalidName
                  "database names cannot contain the character ' '")),
        later).
Proof.
  intros first later.
  split.
  - destruct (connection_is_made_once "Proj1" "Reports" Sample.world
                (snd first) later
                {| Mongo.client := "mongodb+srv://cluster0";
                   Mongo.database_name := "Proj1" |})
      as [Hrun _]; [reflexivity | reflexivity | exact Hrun].
  - destruct (connection_is_made_once "Proj1" "Monthly Reports" Sample.world
                (snd first) later
                {| Mongo.client := "mongodb+srv://cluster0";
                   Mongo.database_name := "Proj1" |})
      as [Hrun _]; [reflexivity | reflexivity | exact Hrun].
Defined.

Lemma ingestion_touches_only_its_files_witness :
  let run := initiate_data_ingestion Sample.cfg Sample.world in
  fs (snd run) !! "config/schema.yaml" = fs Sample.world !! "config/schema.yaml".
Proof.
  intros run.
  destruct (ingestion_touches_only_its_files Sample.cfg Sample.world (snd run)
              (fst run) (surjective_pairing run)) as [Hfs _].
  apply Hfs; intros H; vm_compute in H; discriminate H.
Defined.

Lemma exported_frame_shape_witness :
  exists df,
    Mongo.export_collection_as_dataframe
      {| Mongo.client := "mongodb+srv://cluster0"; Mongo.database_name := "Proj1" |}
      "Proj1-Data" None Sample.world = (inr df, Sample.world)
    /\ Frame.nrows df = 4%nat
    /\ In "Gender" (Frame.columns df).
Proof.
  destruct (exported_frame_shape
              {| Mongo.client := "mongodb+srv://cluster0"; Mongo.database_name := "Proj1" |}
              "Proj1-Data" Sample.docs Sample.world eq_refl)
    as (df & Hrun & Hn & _ & _ & Hkeys & _).
  exists df. split; [exact Hrun |]. split; [exact Hn |].
  apply (Hkeys (nth 0 Sample.docs []) "Gender" (Frame.VStr "Male")).
  - left. reflexivity.
  - cbn. auto.
  - discriminate.
Defined.

Lemma ingestion_returns_witness :
  exists w' train test,
    initiate_data_ingestion Sample.cfg Sample.world
    = (inr Sample.ingested, w')
    /\ fs w'
       = <[testing_file_path Sample.cfg := test]>
           (<[training_file_path Sample.cfg := train]>
              (<[feature_store_file_path Sample.cfg :=
                   Mongo.clean (Frame.of_documents Sample.docs)]> ∅))
    /\ (Frame.nrows train + Frame.nrows test = 4)%nat.
Proof.
  destruct (ingestion_returns Sample.cfg Sample.world "mongodb+srv://cluster0"
              Sample.docs {| Number.mant := 1; Number.expo := -2 |})
    as (w' & train & test & Hrun & Hfs & Hsum & _).
  - right. repeat split; reflexivity.
  - reflexivity.
  - reflexivity.
  - split; reflexivity.
  - reflexivity.
  - reflexivity.
  - split; [intros H; vm_compute in H; discriminate H | reflexivity].
  - split; [intros H; vm_compute in H; discriminate H | reflexivity].
  - split; [intros H; vm_compute in H; discriminate H | reflexivity].
  - split; [intros H; vm_compute in H; discriminate H | reflexivity].
  - split; [intros H; vm_compute in H; discriminate H | reflexivity].
  - exists w', train, test. auto.
Defined.

Lemma snapshot_survives_refused_split_witness :
  exists w',
    initiate_data_ingestion (Sample.cfg_with_ratio Sample.one_and_a_half)
                            Sample.world
    = (inl (wrapped 2 Sklearn.test_size_refused), w')
    /\ is_Some (fs w' !! feature_store_file_path Sample.cfg).
Proof.
  destruct (snapshot_survives_refused_split
              (Sample.cfg_with_ratio Sample.one_and_a_half)
              Sample.world "mongodb+srv://cluster0" Sample.docs
              Sklearn.test_size_refused)
    as (w' & Hrun & Hfs).
  - right. repeat split; reflexivity.
  - reflexivity.
  - split; [intros H; vm_compute in H; discriminate H | reflexivity].
  - split; [intros H; vm_compute in H; discriminate H | reflexivity].
  - reflexivity.
  - exists w'. split; [exact Hrun |]. rewrite Hfs.
    change (feature_store_file_path (Sample.cfg_with_ratio Sample.one_and_a_half))
      with (feature_store_file_path Sample.cfg).
    rewrite lookup_insert_eq. eauto.
Defined.

Lemma unsplittable_collection_raises_witness :
  exists e' w',
    initiate_data_ingestion Sample.cfg (Sample.world_with [])
    = (inl (MyException e'), w').
Proof.
  apply (unsplittable_collection_raises Sample.cfg (Sample.world_with []) []
           Sklearn.train_set_empty).
  - intros url. reflexivity.
  - reflexivity.
Defined.

Lemma default_split_sizes_witness :
  Sklearn.validate_shuffle_split 100 DATA_INGESTION_TRAIN_TEST_SPLIT_RATIO
  = inr (75, 25)%nat
  /\ exists e,
       Sklearn.validate_shuffle_split 1 DATA_INGESTION_TRAIN_TEST_SPLIT_RATIO
       = inl e.
Proof.
  split.
  - destruct (default_split_sizes 100) as [H _]. apply H. lia.
  - destruct (default_split_sizes 1) as [_ H]. apply H. lia.
Defined.

Lemma missing_url_fails_the_stage_witness :
  exists w',
    initiate_data_ingestion Sample.cfg (Sample.without_url Sample.world)
    = (inl (wrapped 4 (PlainException
                         "Environment variable 'MONGODB_URL' is not set.")), w')
    /\ fs w' = fs Sample.world.
Proof.
  destruct (missing_url_fails_the_stage Sample.cfg
              (Sample.without_url Sample.world))
    as (w' & Hrun & Hfs & _).
  - reflexivity.
  - reflexivity.
  - exists w'. split; [exact Hrun | exact Hfs].
Defined.

Lemma failed_query_fails_the_stage_witness :
  exists w',
    initiate_data_ingestion Sample.cfg (Sample.unreachable Sample.world)
    = (inl (wrapped 3 (PyError "ServerSelectionTimeoutError"
                               "No servers found yet")), w')
    /\ fs w' = fs Sample.world.
Proof.
  destruct (failed_query_fails_the_stage Sample.cfg
              (Sample.unreachable Sample.world) "mongodb+srv://cluster0"
              (PyError "ServerSelectionTimeoutError" "No servers found yet"))
    as (w' & Hrun & Hfs).
  - right. repeat split; reflexivity.
  - reflexivity.
  - exists w'. split; [exact Hrun | exact Hfs].
Defined.

Lemma train_file_survives_failed_test_write_witness :
  let w := Sample.refusing (testing_file_path Sample.cfg) Sample.world in
  exists w',
    split_data_as_train_test Sample.cfg (Sample.labelled 8) w
    = (inl (MyException (PyError "PermissionError" "Permission denied")), w')
    /\ is_Some (fs w' !! training_file_path Sample.cfg).
Proof.
  intros w.
  destruct (Sklearn.train_test_split (rng w) (Sample.labelled 8)
              (train_test_split_ratio Sample.cfg))
    as [e | [train test]] eqn:Hsplit;
    [vm_compute in Hsplit; discriminate Hsplit |].
  destruct (train_file_survives_failed_test_write Sample.cfg (Sample.labelled 8)
              train test w (PyError "PermissionError" "Permission denied") Hsplit)
    as (w' & Hrun & _ & Hfile).
  - split; [intros H; vm_compute in H; discriminate H | reflexivity].
  - split; [intros H; vm_compute in H; discriminate H | reflexivity].
  - intros H; vm_compute in H; discriminate H.
  - reflexivity.
  - exists w'. split; [exact Hrun |]. rewrite Hfile. eauto.
Defined.

Lemma split_is_a_partition_witness :
  exists train test ind_train ind_test,
    Sklearn.train_test_split (fun i => 7 * i + 3) (Sample.labelled 8)
                             DATA_INGESTION_TRAIN_TEST_SPLIT_RATIO
    = inr (train, test)
    /\ train = Frame.take_rows ind_train (Sample.labelled 8)
    /\ test = Frame.take_rows ind_test (Sample.labelled 8)
    /\ Permutation (ind_test ++ ind_train) (seq 0 8).
Proof.
  destruct (Sklearn.train_test_split (fun i => 7 * i + 3) (Sample.labelled 8)
              DATA_INGESTION_TRAIN_TEST_SPLIT_RATIO)
    as [e | [train test]] eqn:Hsplit;
    [vm_compute in Hsplit; discriminate Hsplit |].
  destruct (split_is_a_partition _ _ _ _ _ Hsplit)
    as (ind_train & ind_test & Htr & Hte & Hperm & _).
  exists train, test, ind_train, ind_test. auto.
Defined.

Lemma run_fails_only_with_a_stage_witness :
  let run := run_pipeline (Sample.components (73 # 100) true Sample.deployed_070)
                          Sample.pipeline (start Sample.world) in
  exists s e, raised_in s e (trace (snd run))
              /\ fst run = inl (MyException (MyException e)).
Proof.
  intros run.
  assert (Herr : fst run
                 = inl (MyException (MyException
                          (PlainException
                             "No model found with score above the base score"))))
    by (vm_compute; reflexivity).
  destruct (run_fails_only_with_a_stage
              (Sample.components (73 # 100) true Sample.deployed_070)
              Sample.pipeline Sample.world (fst run) (snd run)
              (surjective_pairing run)) as [Hfail _].
  destruct (Hfail _ Herr) as (s & e & Hraised & Heq).
  exists s, e. split; [exact Hraised |]. rewrite Herr. f_equal. exact Heq.
Defined.

Lemma stages_run_in_order_witness :
  let run := run_pipeline (Sample.components (73 # 100) true Sample.deployed_070)
                          Sample.pipeline (start Sample.world) in
  exists k, (1 <= k <= 6)%nat /\ stages_of (trace (snd run)) = take k stage_order.
Proof.
  intros run.
  apply (stages_run_in_order
           (Sample.components (73 # 100) true Sample.deployed_070)
           Sample.pipeline Sample.world (fst run) (snd run)
           (surjective_pairing run)).
Defined.

Lemma validation_status_is_not_inspected_witness :
  let failing := Sample.with_failing_validation
                   (Sample.components (73 # 100) false Sample.deployed_070) in
  let run := run_pipeline failing Sample.pipeline (start Sample.world) in
  times DataTransformation (trace (snd run)) = 1%nat.
Proof.
  intros failing run.
  assert (Hret : returned_in DataValidation
            (OfValidation
               {| validation_status := false;
                  message := "Columns are missing in training dataframe.";
                  validation_report_file_path :=
                    Config.validation_report_file_path
                      (default_DataValidationConfig Sample.now) |})
            (trace (snd run))).
  { eexists. vm_compute. right. left. reflexivity. }
  apply (validation_status_is_not_inspected failing Sample.pipeline Sample.world
           (fst run) (snd run) (surjective_pairing run) _ Hret).
Defined.

Lemma run_without_url_witness :
  exists r',
    run_pipeline (Sample.components (73 # 100) false Sample.deployed_070)
                 (TrainPipeline_init Sample.now)
                 (start (Sample.without_url Sample.world))
    = (inl (wrapped 6 (PlainException
                         "Environment variable 'MONGODB_URL' is not set.")), r')
    /\ stages_of (trace r') = [DataIngestion].
Proof.
  destruct (run_without_url
              (Sample.components (73 # 100) false Sample.deployed_070)
              Sample.now (Sample.without_url Sample.world))
    as (r' & Hrun & Hst & _).
  - reflexivity.
  - reflexivity.
  - exists r'. split; [exact Hrun | exact Hst].
Defined.

End FurtherRuns.
